(** * Heat-pump telemetry analytics: [data_query.py]

    A shallow embedding of the calculations of [HeatPumpDataQuery] and the
    properties of its natural-language specification.

    Conventions of the embedding:
    - a pandas [Timestamp] is its integer nanosecond count ([Z]); a
      [Timedelta] is a difference of two of them;
    - a Python float is an exact rational ([Q]); statements that the
      specification makes "within floating-point tolerance" are stated as
      exact equalities ([==]) over the rationals;
    - a long-format [DataFrame] (one row per sample) is the list of its rows;
    - the InfluxDB query API and the provider's alarm table are parameters;
    - an exception is a value of [exn]; [try/except] is a [match] on it.  *)

From Stdlib Require Import ZArith QArith Qround Qabs Qminmax Lqa Lia Bool List.
From Stdlib Require Import Ascii String DecimalString DecimalN DecimalZ.
From Stdlib Require Import Sorting.Permutation Sorting.Sorted.
From stdpp Require Import base gmap strings.
Import ListNotations.

#[local] Open Scope string_scope.
#[local] Open Scope list_scope.
#[local] Open Scope Z_scope.

(** ** Python built-ins used by the module *)

Module Py.

(** Exceptions that the modelled code can raise. *)
Inductive exn : Type :=
| ValueError (msg : string)
| UpstreamError (msg : string).

Inductive result (A : Type) : Type :=
| Ok (a : A)
| Raise (e : exn).
Arguments Ok {A} a.
Arguments Raise {A} e.

(** [str.endswith] *)
Definition endswith (s suffix : string) : bool :=
  let n := String.length s in
  let k := String.length suffix in
  (k <=? n)%nat && String.eqb (substring (n - k) k s) suffix.

(** [s[:-1]] *)
Definition drop_last (s : string) : string :=
  substring 0 (String.length s - 1) s.

(** ASCII white space as [str.strip] and [int] see it. *)
Definition is_space (c : ascii) : bool :=
  let n := N_of_ascii c in
  ((9 <=? n) && (n <=? 13) || (28 <=? n) && (n <=? 32))%N.

Fixpoint lstrip (s : string) : string :=
  match s with
  | String c r => if is_space c then lstrip r else s
  | EmptyString => EmptyString
  end.

Fixpoint rstrip (s : string) : string :=
  match s with
  | EmptyString => EmptyString
  | String c r =>
      match rstrip r with
      | EmptyString => if is_space c then EmptyString else String c EmptyString
      | r' => String c r'
      end
  end.

Definition strip (s : string) : string := rstrip (lstrip s).

Definition digit_of (c : ascii) : option (Decimal.uint -> Decimal.uint) :=
  match c with
  | "0"%char => Some Decimal.D0 | "1"%char => Some Decimal.D1
  | "2"%char => Some Decimal.D2 | "3"%char => Some Decimal.D3
  | "4"%char => Some Decimal.D4 | "5"%char => Some Decimal.D5
  | "6"%char => Some Decimal.D6 | "7"%char => Some Decimal.D7
  | "8"%char => Some Decimal.D8 | "9"%char => Some Decimal.D9
  | _ => None
  end.

(** The digits of an integer literal: decimal digits, with single
    underscores allowed between two digits.  [after_digit] tells whether
    the previous character was a digit. *)
Fixpoint int_digits (after_digit : bool) (s : string) : option Decimal.uint :=
  match s with
  | EmptyString => if after_digit then Some Decimal.Nil else None
  | String c r =>
      match digit_of c with
      | Some d => option_map d (int_digits true r)
      | None =>
          if Ascii.eqb c "_" && after_digit then
            match r with
            | EmptyString => None
            | _ => int_digits false r
            end
          else None
      end
  end.

(** [int(s)] on a string, base 10.  ASCII only: Python also accepts the
    decimal digits and spaces of other scripts, which are errors here. *)
Definition int (s : string) : result Z :=
  let body := strip s in
  let parsed :=
    match body with
    | String "+" r => option_map Z.of_uint (int_digits false r)
    | String "-" r => option_map (fun d => - Z.of_uint d) (int_digits false r)
    | _ => option_map Z.of_uint (int_digits false body)
    end in
  match parsed with
  | Some z => Ok z
  | None => Raise (ValueError (String.append "invalid literal for int() with base 10: " s))
  end.

(** [str(n)] for a natural number. *)
Definition str_of_N (n : N) : string := NilZero.string_of_uint (N.to_uint n).

(** [str(z)] for an integer. *)
Definition str_of_Z (z : Z) : string := NilZero.string_of_int (Z.to_int z).

End Py.

Import Py.

(** ** Aggregation window selection *)

(** [_get_aggregation_window(self, time_range)] *)
Definition _get_aggregation_window (time_range : string) : result string :=
  if endswith time_range "h" then
    match int (drop_last time_range) with
    | Raise e => Raise e
    | Ok hours =>
        if hours <=? 1 then Ok "1m"
        else if hours <=? 6 then Ok "3m"
        else if hours <=? 24 then Ok "5m"
        else Ok "15m"
    end
  else if endswith time_range "d" then
    match int (drop_last time_range) with
    | Raise e => Raise e
    | Ok days =>
        if days <=? 1 then Ok "5m"
        else if days <=? 7 then Ok "30m"
        else if days <=? 30 then Ok "2h"
        else Ok "6h"
    end
  else Ok "5m".

(** [_get_cop_aggregation_window(self, time_range)] *)
Definition _get_cop_aggregation_window (time_range : string) : result string :=
  if endswith time_range "h" then
    match int (drop_last time_range) with
    | Raise e => Raise e
    | Ok hours =>
        if hours <=? 1 then Ok "1m"
        else if hours <=? 6 then Ok "2m"
        else if hours <=? 24 then Ok "5m"
        else Ok "10m"
    end
  else if endswith time_range "d" then
    match int (drop_last time_range) with
    | Raise e => Raise e
    | Ok days =>
        if days <=? 1 then Ok "5m"
        else if days <=? 7 then Ok "10m"
        else if days <=? 30 then Ok "10m"
        else Ok "1h"
    end
  else Ok "5m".

(** ** pandas primitives *)

Module Pandas.

Definition Timestamp : Type := Z.

(** [Timedelta.total_seconds()] of a difference of two timestamps. *)
Definition total_seconds (d : Z) : Q := inject_Z d / 1000000000.

(** One sample of the long-format frame that a query returns: the columns
    [name], [_time], [_value] and the optional [unit]. *)
Record Row : Type := mkRow {
  name : string;
  _time : Timestamp;
  _value : Q;
  unit_ : option string
}.

Definition DataFrame : Type := list Row.

(** [df.empty] *)
Definition empty {A : Type} (df : list A) : bool :=
  match df with [] => true | _ => false end.

(** [df[df['name'] == metric]] *)
Definition where_name (metric : string) (df : DataFrame) : DataFrame :=
  List.filter (fun r => String.eqb (name r) metric) df.

Fixpoint insert_by_time (r : Row) (df : DataFrame) : DataFrame :=
  match df with
  | [] => [r]
  | x :: rest =>
      if _time r <=? _time x then r :: df else x :: insert_by_time r rest
  end.

(** [df.sort_values('_time')]: ascending, rows of equal time keep their
    order. *)
Definition sort_values (df : DataFrame) : DataFrame :=
  fold_right insert_by_time [] df.

Fixpoint diff_from (prev : Z) (l : list Z) : list (option Z) :=
  match l with
  | [] => []
  | t :: rest => Some (t - prev) :: diff_from t rest
  end.

(** [series.diff()]: the first entry has no predecessor (NaT). *)
Definition diff (l : list Z) : list (option Z) :=
  match l with
  | [] => []
  | t :: rest => None :: diff_from t rest
  end.

(** [series.shift(1)]: the first entry is missing (NaN). *)
Definition shift1 {A : Type} (l : list A) : list (option A) :=
  match l with
  | [] => []
  | _ :: _ => None :: List.map Some (removelast l)
  end.

(** [series.fillna(v)] *)
Definition fillna (v : Q) (l : list (option Q)) : list Q :=
  List.map (fun o => match o with Some x => x | None => v end) l.

(** [series.sum()] *)
Definition sum (l : list Q) : Q := fold_right Qplus 0%Q l.

(** [series.mean()] (also [np.mean]) of a non-empty series. *)
Definition mean (l : list Q) : Q := sum l / inject_Z (Z.of_nat (List.length l)).

Definition Zmax_list (t : Z) (l : list Z) : Z := fold_left Z.max l t.
Definition Zmin_list (t : Z) (l : list Z) : Z := fold_left Z.min l t.

(** [series.max()] of a non-empty series of values. *)
Definition max_value (l : list Q) : Q :=
  match l with
  | [] => 0%Q
  | x :: rest => fold_left Qmax rest x
  end.

(** [(df['_time'].max() - df['_time'].min())], in nanoseconds. *)
Definition time_span (df : DataFrame) : Z :=
  match List.map _time df with
  | [] => 0
  | t :: rest => Zmax_list t rest - Zmin_list t rest
  end.

End Pandas.

Import Pandas.

Module PyNum.

(** Rounding to the nearest integer, ties to the even one. *)
Definition round_half_even (x : Q) : Z :=
  let f := Qfloor x in
  match (x - inject_Z f ?= 1 # 2)%Q with
  | Lt => f
  | Gt => f + 1
  | Eq => if Z.even f then f else f + 1
  end.

(** [round(x, ndigits)] *)
Definition round (x : Q) (ndigits : nat) : Q :=
  let scale := inject_Z (10 ^ Z.of_nat ndigits) in
  (inject_Z (round_half_even (x * scale)) / scale)%Q.

(** [a < b] on floats. *)
Definition Qlt_bool (a b : Q) : bool := negb (Qle_bool b a).

(** [int(x)] of a float: truncation towards zero. *)
Definition int_of_float (x : Q) : Z := Z.quot (Qnum x) (Zpos (Qden x)).

End PyNum.

Import PyNum.

(** ** Effects: logging and exceptions *)

Module Effects.

(** Only the records of level [ERROR] that the [except] handlers write are
    modelled; the message is the handler's prefix followed by the text of
    the exception. *)
Inductive log_record : Type :=
| ERROR (msg : string).

(** A computation that writes log records and either returns or raises. *)
Definition M (A : Type) : Type := (result A * list log_record)%type.

Definition ret {A : Type} (a : A) : M A := (Ok a, []).

Definition lift {A : Type} (r : result A) : M A := (r, []).

Definition bind {A B : Type} (m : M A) (k : A -> M B) : M B :=
  match m with
  | (Ok a, l) => let (r, l') := k a in (r, l ++ l')
  | (Raise e, l) => (Raise e, l)
  end.

(** [try: body  except Exception as e: handler e] *)
Definition try_except {A : Type} (body : M A) (handler : exn -> M A) : M A :=
  match body with
  | (Ok a, l) => (Ok a, l)
  | (Raise e, l) => let (r, l') := handler e in (r, l ++ l')
  end.

Definition str_of_exn (e : exn) : string :=
  match e with
  | ValueError msg => msg
  | UpstreamError msg => msg
  end.

(** [logger.error(f"{prefix}: {e}")] *)
Definition logger_error (prefix : string) (e : exn) : M unit :=
  (Ok tt, [ERROR (String.append prefix (String.append ": " (str_of_exn e)))]).

(** The value a computation returns, when it returns. *)
Definition returned {A : Type} (m : M A) : option A :=
  match fst m with
  | Ok a => Some a
  | Raise _ => None
  end.

Definition logged {A : Type} (m : M A) : list log_record := snd m.

End Effects.

Import Effects.

Notation "'let*' x ':=' m 'in' k" := (bind m (fun x => k))
  (at level 10, x name, m at level 100, k at level 200).
Notation "m ';;' k" := (bind m (fun _ => k))
  (at level 100, k at level 200, right associativity).

(** ** The telemetry source *)

(** The Flux queries the module sends, by their parameters. *)
Inductive Query : Type :=
| MetricsQuery (bucket time_range : string) (metric_names : list string)
    (aggregation_window : string)
| LatestQuery (bucket : string)
| EventQuery (bucket metric : string).

(** What [query_api.query_data_frame] does: it raises, or returns one frame
    or a list of frames. *)
Inductive api_result : Type :=
| ApiRaise (e : exn)
| ApiFrame (df : DataFrame)
| ApiFrames (dfs : list DataFrame).

(** The fields of [self] that the calculations read. *)
Record HeatPumpDataQuery : Type := mkSelf {
  bucket : string;
  query_data_frame : Query -> api_result;
  alarm_codes : Z -> option string
}.

(** [if isinstance(result, list): result = pd.concat(result, ignore_index=True)];
    [pd.concat] raises on an empty list. *)
Definition as_frame (r : api_result) : result DataFrame :=
  match r with
  | ApiRaise e => Raise e
  | ApiFrame df => Ok df
  | ApiFrames [] => Raise (ValueError "No objects to concatenate")
  | ApiFrames dfs => Ok (List.concat dfs)
  end.

(** Fields that should NOT be divided (already in correct units). *)
Definition no_division_fields : list string :=
  [ "compressor_status"; "brine_pump_status"; "radiator_pump_status";
    "switch_valve_status"; "alarm_status"; "alarm_code";
    "operating_mode"; "external_control";
    "power_consumption" ].

(** [x in list_of_strings] *)
Definition str_in (x : string) (l : list string) : bool :=
  existsb (String.eqb x) l.
Arguments str_in : simpl never.

Record LatestEntry : Type := mkLatest {
  value : Q;
  unit : string;
  time : Timestamp
}.

Record EnergyCostResult : Type := mkEnergy {
  total_kwh : Q;
  total_cost : Q;
  avg_power : Q;
  peak_power : Q
}.

Definition zero_energy : EnergyCostResult := mkEnergy 0 0 0 0.

(** The columns [time_diff_hours] and [energy_kwh] that
    [calculate_energy_costs] and the hot-water analysis add to a frame
    sorted by time. *)
Definition time_diff_hours (df : DataFrame) : list Q :=
  fillna 0
    (List.map (option_map (fun d => total_seconds d / 3600)%Q)
       (diff (List.map _time df))).

Definition energy_kwh (df : DataFrame) : list Q :=
  List.map (fun vh => (fst vh * snd vh) / 1000)%Q
    (combine (List.map _value df) (time_diff_hours df)).

(** *** Energy *)

(** The local [total_kwh] of [calculate_energy_costs], before rounding. *)
Definition energy_total (df : DataFrame) : Q :=
  sum (energy_kwh (sort_values df)).

(** The body of [calculate_energy_costs] after the query. *)
Definition energy_costs_of_df (df : DataFrame) (price_per_kwh : Q)
    : EnergyCostResult :=
  if empty df then zero_energy
  else
    let df := sort_values df in
    let total_kwh := sum (energy_kwh df) in
    let total_cost := (total_kwh * price_per_kwh)%Q in
    let avg_power := mean (List.map _value df) in
    let peak_power := max_value (List.map _value df) in
    mkEnergy (round total_kwh 2) (round total_cost 2)
      (round avg_power 0) (round peak_power 0).

(** *** Runtime *)

Record RuntimeStats : Type := mkRuntime {
  compressor_runtime_hours : Q;
  compressor_runtime_percent : Q;
  aux_heater_runtime_hours : Q;
  aux_heater_runtime_percent : Q;
  total_hours : Q
}.

Definition zero_runtime : RuntimeStats := mkRuntime 0 0 0 0 0.

Definition no_row : Row := mkRow "" 0 0 None.

(** [df.iloc[i]] for an index in range. *)
Definition iloc (df : DataFrame) (i : nat) : Row := nth i df no_row.

(** The seconds that [calculate_runtime_stats] accrues for one signal
    ([comp_runtime_seconds], [aux_runtime_seconds]) from that signal's rows. *)
Definition runtime_seconds (sub_df : DataFrame) : Q :=
  if empty sub_df then 0%Q
  else
    let sub_df := sort_values sub_df in
    let n := List.length sub_df in
    let accrued :=
      fold_left
        (fun (acc : Q) (i : nat) =>
           if Qlt_bool 0 (_value (iloc sub_df i))
           then (acc + total_seconds (_time (iloc sub_df (i + 1)) - _time (iloc sub_df i)))%Q
           else acc)
        (seq 0 (n - 1)) 0%Q in
    if (1 <? n)%nat && Qlt_bool 0 (_value (iloc sub_df (n - 1)))
    then (accrued + total_seconds (_time (iloc sub_df (n - 1)) - _time (iloc sub_df (n - 2))))%Q
    else accrued.

(** The body of [calculate_runtime_stats] after the query. *)
Definition runtime_stats_of_df (df : DataFrame) : RuntimeStats :=
  if empty df then zero_runtime
  else
    let df := sort_values df in
    let total_seconds := total_seconds (time_span df) in
    let total_hours := (total_seconds / 3600)%Q in
    if Qeq_bool total_hours 0 then zero_runtime
    else
      let comp_df := where_name "compressor_status" df in
      let comp_runtime_seconds := runtime_seconds comp_df in
      let comp_runtime_hours := (comp_runtime_seconds / 3600)%Q in
      let comp_runtime_percent :=
        if Qlt_bool 0 total_hours
        then (comp_runtime_hours / total_hours * 100)%Q else 0%Q in
      let aux_df := where_name "additional_heat_percent" df in
      let aux_runtime_seconds := runtime_seconds aux_df in
      let aux_runtime_hours := (aux_runtime_seconds / 3600)%Q in
      let aux_runtime_percent :=
        if Qlt_bool 0 total_hours
        then (aux_runtime_hours / total_hours * 100)%Q else 0%Q in
      mkRuntime (round comp_runtime_hours 1) (round comp_runtime_percent 1)
        (round aux_runtime_hours 1) (round aux_runtime_percent 1)
        (round total_hours 1).

(** *** Hot-water cycles *)

Record CycleSummary : Type := mkCycles {
  total_cycles : nat;
  avg_cycle_duration_minutes : Q;
  avg_energy_per_cycle_kwh : Q;
  cycles_per_day : Q
}.

Definition zero_cycles : CycleSummary := mkCycles 0 0 0 0.

(** [valve_df[(valve_df['_value'] == 1) & (valve_df['prev_value'] == 0)]]
    with [prev_value = valve_df['_value'].shift(1)]. *)
Definition cycles_start (valve_df : DataFrame) : DataFrame :=
  List.map fst
    (List.filter
       (fun rp =>
          Qeq_bool (_value (fst rp)) 1 &&
          match snd rp with
          | Some prev_value => Qeq_bool prev_value 0
          | None => false
          end)
       (combine valve_df (shift1 (List.map _value valve_df)))).

(** [end_times]: the rows of value 0 strictly after [start_time]. *)
Definition end_times (valve_df : DataFrame) (start_time : Timestamp) : DataFrame :=
  let after_start := List.filter (fun r => start_time <? _time r) valve_df in
  List.filter (fun r => Qeq_bool (_value r) 0) after_start.

(** [duration_minutes] of a cycle. *)
Definition duration_minutes (start_time end_time : Timestamp) : Q :=
  let duration_seconds := total_seconds (end_time - start_time) in
  (duration_seconds / 60)%Q.

(** The three accumulators of the loop over the cycle starts. *)
Record CycleAcc : Type := mkAcc {
  cycle_durations : list Q;
  cycle_energies : list Q;
  filtered_count : nat
}.

(** One iteration of [for start_time in cycles_start['_time']]. *)
Definition cycle_step (MIN_CYCLE_DURATION_MINUTES : Q)
    (valve_df power_df : DataFrame) (acc : CycleAcc) (start_time : Timestamp)
    : CycleAcc :=
  match end_times valve_df start_time with
  | [] => acc
  | first :: _ =>
      let end_time := _time first in
      let duration_minutes := duration_minutes start_time end_time in
      if Qlt_bool duration_minutes MIN_CYCLE_DURATION_MINUTES
      then mkAcc (cycle_durations acc) (cycle_energies acc) (S (filtered_count acc))
      else
        let cycle_power :=
          List.filter
            (fun r => (start_time <=? _time r) && (_time r <=? end_time))
            power_df in
        mkAcc (cycle_durations acc ++ [duration_minutes])
          (if empty cycle_power then cycle_energies acc
           else cycle_energies acc ++ [sum (energy_kwh (sort_values cycle_power))])
          (filtered_count acc)
  end.

Definition cycle_loop (MIN_CYCLE_DURATION_MINUTES : Q)
    (valve_df power_df : DataFrame) : CycleAcc :=
  fold_left (cycle_step MIN_CYCLE_DURATION_MINUTES valve_df power_df)
    (List.map _time (cycles_start valve_df)) (mkAcc [] [] 0).

(** The common body of [analyze_hot_water_cycles_from_df] and
    [analyze_hot_water_cycles], which differ in
    [MIN_CYCLE_DURATION_MINUTES] (10 and 5). *)
Definition hot_water_summary (MIN_CYCLE_DURATION_MINUTES : Q) (df : DataFrame)
    : CycleSummary :=
  if empty df then zero_cycles
  else
    let valve_df := where_name "switch_valve_status" df in
    let power_df := where_name "power_consumption" df in
    if empty valve_df then zero_cycles
    else
      let valve_df := sort_values valve_df in
      let power_df := sort_values power_df in
      let num_cycles := List.length (cycles_start valve_df) in
      if (num_cycles =? 0)%nat then zero_cycles
      else
        let acc := cycle_loop MIN_CYCLE_DURATION_MINUTES valve_df power_df in
        let num_valid_cycles := List.length (cycle_durations acc) in
        if (num_valid_cycles =? 0)%nat then zero_cycles
        else
          let avg_duration :=
            if empty (cycle_durations acc) then 0%Q else mean (cycle_durations acc) in
          let avg_energy_kwh :=
            if empty (cycle_energies acc) then 0%Q else mean (cycle_energies acc) in
          let total_days := (total_seconds (time_span valve_df) / 86400)%Q in
          let cycles_per_day :=
            if Qlt_bool 0 total_days
            then (inject_Z (Z.of_nat num_valid_cycles) / total_days)%Q else 0%Q in
          mkCycles num_valid_cycles (round avg_duration 1)
            (round avg_energy_kwh 2) (round cycles_per_day 1).

(** *** COP *)

Definition cop_metrics : list string :=
  [ "radiator_forward"; "radiator_return"; "brine_in_evaporator";
    "brine_out_condenser"; "power_consumption"; "compressor_status" ].

(** A row of the aligned frame [df_pivot]: one optional cell per metric
    column (missing is NaN), and the three derived columns. *)
Record PivotRow : Type := mkPivot {
  p_time : Timestamp;
  radiator_forward : option Q;
  radiator_return : option Q;
  brine_in_evaporator : option Q;
  brine_out_condenser : option Q;
  power_consumption : option Q;
  compressor_status : option Q;
  radiator_delta : option Q;
  brine_delta : option Q;
  estimated_cop : option Q
}.

(** The cell of [pivot_table(index='_time', columns='name', values='_value',
    aggfunc='mean')] at time [t] and column [metric]. *)
Definition pivot_cell (df : DataFrame) (t : Timestamp) (metric : string)
    : option Q :=
  let values :=
    List.map _value
      (List.filter (fun r => (_time r =? t) && String.eqb (name r) metric) df) in
  if empty values then None else Some (mean values).

(** The index of the pivot table: the distinct times, ascending. *)
Definition pivot_index (df : DataFrame) : list Timestamp :=
  nodup Z.eq_dec (List.map _time (sort_values df)).

(** [metric in df_pivot.columns] *)
Definition has_column (df : DataFrame) (metric : string) : bool :=
  existsb (fun r => String.eqb (name r) metric) df.

(** Arithmetic and comparison on cells; NaN propagates and compares false. *)
Definition cell_sub (a b : option Q) : option Q :=
  match a, b with
  | Some x, Some y => Some (x - y)%Q
  | _, _ => None
  end.

Definition cell_gt (a : option Q) (c : Q) : bool :=
  match a with
  | Some x => Qlt_bool c x
  | None => false
  end.

(** [series.clip(lower, upper)] on one value. *)
Definition clip (lower upper x : Q) : Q :=
  if Qlt_bool x lower then lower
  else if Qlt_bool upper x then upper
  else x.

(** The derived columns of one row, given which columns the frame has. *)
Definition cop_row (df : DataFrame) (t : Timestamp) : PivotRow :=
  let col := pivot_cell df t in
  let radiator_delta :=
    if has_column df "radiator_forward" && has_column df "radiator_return"
    then cell_sub (col "radiator_forward") (col "radiator_return")
    else None in
  let brine_delta :=
    if has_column df "brine_in_evaporator" && has_column df "brine_out_condenser"
    then cell_sub (col "brine_in_evaporator") (col "brine_out_condenser")
    else None in
  let has_deltas :=
    (has_column df "radiator_forward" && has_column df "radiator_return") &&
    (has_column df "brine_in_evaporator" && has_column df "brine_out_condenser") in
  let mask :=
    (if has_column df "compressor_status"
     then cell_gt (col "compressor_status") 0 else false) &&
    cell_gt brine_delta (1 # 2) &&
    cell_gt radiator_delta (1 # 2) in
  let estimated_cop :=
    if has_deltas && mask then
      match radiator_delta, brine_delta with
      | Some rd, Some bd => Some (clip (3 # 2) 6 (2 + rd / bd))%Q
      | _, _ => None
      end
    else None in
  mkPivot t (col "radiator_forward") (col "radiator_return")
    (col "brine_in_evaporator") (col "brine_out_condenser")
    (col "power_consumption") (col "compressor_status")
    radiator_delta brine_delta estimated_cop.

(** The body of [calculate_cop_from_df]. *)
Definition cop_frame (df : DataFrame) : list PivotRow :=
  if empty df then []
  else
    let df_filtered := List.filter (fun r => str_in (name r) cop_metrics) df in
    if empty df_filtered then []
    else List.map (cop_row df_filtered) (pivot_index df_filtered).

(** *** Events *)

Record Event : Type := mkEvent {
  ev_time : Timestamp;
  ev_event : string;
  ev_type : string;
  ev_icon : string
}.

Definition event_metrics : list string :=
  [ "compressor_status"; "brine_pump_status"; "radiator_pump_status";
    "switch_valve_status"; "additional_heat_percent"; "alarm_code" ].

(** [f'{int(current)}'] *)
Definition fmt_int (current : Q) : string := str_of_Z (int_of_float current).

Definition on_off (current previous : Q) (timestamp : Timestamp)
    (on_text off_text on_icon off_icon : string) : list Event :=
  if Qlt_bool 0 current && Qeq_bool previous 0
  then [mkEvent timestamp on_text "info" on_icon]
  else if Qeq_bool current 0 && Qlt_bool 0 previous
  then [mkEvent timestamp off_text "info" off_icon]
  else [].

(** The events that one row of [metric] appends, by the [if/elif] chain of
    [get_event_log]. *)
Definition row_events (codes : Z -> option string) (metric : string)
    (current previous : Q) (timestamp : Timestamp) : list Event :=
  if String.eqb metric "compressor_status" then
    on_off current previous timestamp "Kompressor PÅ" "Kompressor AV" "🔄" "⏸️"
  else if String.eqb metric "brine_pump_status" then
    on_off current previous timestamp "Köldbärarpump PÅ" "Köldbärarpump AV" "💧" "💧"
  else if String.eqb metric "radiator_pump_status" then
    on_off current previous timestamp "Radiatorpump PÅ" "Radiatorpump AV" "📡" "📡"
  else if String.eqb metric "switch_valve_status" then
    if Qeq_bool current 1 && Qeq_bool previous 0
    then [mkEvent timestamp "Varmvattencykel START" "info" "🚿"]
    else if Qeq_bool current 0 && Qeq_bool previous 1
    then [mkEvent timestamp "Varmvattencykel STOPP" "info" "🚿"]
    else []
  else if String.eqb metric "additional_heat_percent" then
    if Qlt_bool 0 current && Qeq_bool previous 0
    then [mkEvent timestamp
            (String.append "Tillsattsvärme PÅ ("
               (String.append (fmt_int current) "%)"))
            "warning" "🔥"]
    else if Qeq_bool current 0 && Qlt_bool 0 previous
    then [mkEvent timestamp "Tillsattsvärme AV" "info" "🔥"]
    else if Qlt_bool 0 current && Qlt_bool 0 previous
            && Qlt_bool 10 (Qabs (current - previous))
    then [mkEvent timestamp
            (String.append "Tillsattsvärme ändrad till "
               (String.append (fmt_int current) "%"))
            "warning" "🔥"]
    else []
  else if String.eqb metric "alarm_code" then
    if Qlt_bool 0 current && Qeq_bool previous 0
    then
      let alarm_desc :=
        match codes (int_of_float current) with
        | Some d => d
        | None => String.append "Kod " (fmt_int current)
        end in
      [mkEvent timestamp (String.append "LARM - " alarm_desc) "danger" "⚠️"]
    else if Qeq_bool current 0 && Qlt_bool 0 previous
    then [mkEvent timestamp "Larm återställt" "success" "✅"]
    else []
  else [].

(** The events of one metric's frame: rows in time order, each compared with
    its predecessor; the first row has none and is skipped. *)
Definition metric_events (codes : Z -> option string) (metric : string)
    (result : DataFrame) : list Event :=
  let result := sort_values result in
  flat_map
    (fun rp =>
       match snd rp with
       | None => []
       | Some previous =>
           row_events codes metric (_value (fst rp)) previous (_time (fst rp))
       end)
    (combine result (shift1 (List.map _value result))).

Fixpoint insert_by_time_reverse (e : Event) (l : list Event) : list Event :=
  match l with
  | [] => [e]
  | x :: rest =>
      if ev_time x <=? ev_time e then e :: l
      else x :: insert_by_time_reverse e rest
  end.

(** [sorted(events, key=lambda x: x['time'], reverse=True)]: latest first,
    events of equal time keep their order. *)
Definition sorted_by_time_reverse (events : list Event) : list Event :=
  fold_right insert_by_time_reverse [] events.

(** [l[:stop]] *)
Definition slice_to {A : Type} (l : list A) (stop : Z) : list A :=
  if 0 <=? stop then firstn (Z.to_nat stop) l
  else firstn (Z.to_nat (Z.of_nat (List.length l) + stop)) l.

Section Methods.

Variable self : HeatPumpDataQuery.

(** [query_metrics(self, metric_names, time_range, aggregation_window)] *)
Definition query_metrics (metric_names : list string) (time_range : string)
    (aggregation_window : option string) : M DataFrame :=
  try_except
    (let* aggregation_window :=
       match aggregation_window with
       | None => lift (_get_aggregation_window time_range)
       | Some w => ret w
       end in
     let* result :=
       lift (as_frame (query_data_frame self
               (MetricsQuery (bucket self) time_range metric_names
                  aggregation_window))) in
     ret (List.map
            (fun row =>
               if negb (str_in (name row) no_division_fields)
               then mkRow (name row) (_time row) (_value row / 10)%Q (unit_ row)
               else row)
            result))
    (fun e => logger_error "Error querying metrics" e ;; ret []).

(** [get_latest_values(self)] *)
Definition get_latest_values : M (gmap string LatestEntry) :=
  try_except
    (let* result :=
       lift (as_frame (query_data_frame self (LatestQuery (bucket self)))) in
     ret (fold_left
            (fun (latest : gmap string LatestEntry) row =>
               let metric_name := name row in
               let raw_value := _value row in
               let display_value :=
                 if negb (str_in metric_name no_division_fields)
                 then (raw_value / 10)%Q
                 else raw_value in
               <[ metric_name :=
                    mkLatest display_value
                      (match unit_ row with Some u => u | None => "" end)
                      (_time row) ]> latest)
            result (∅ : gmap string LatestEntry)))
    (fun e => logger_error "Error getting latest values" e ;; ret ∅).

(** [calculate_energy_costs(self, time_range, price_per_kwh)].  Nothing in
    the body after the query raises on a frame of the modelled shape. *)
Definition calculate_energy_costs (time_range : string) (price_per_kwh : Q)
    : M EnergyCostResult :=
  try_except
    (let* df := query_metrics ["power_consumption"] time_range None in
     ret (energy_costs_of_df df price_per_kwh))
    (fun e => logger_error "Error calculating energy costs" e ;; ret zero_energy).

(** [calculate_runtime_stats(self, time_range)] *)
Definition calculate_runtime_stats (time_range : string) : M RuntimeStats :=
  try_except
    (let* df :=
       query_metrics ["compressor_status"; "additional_heat_percent"]
         time_range None in
     ret (runtime_stats_of_df df))
    (fun e => logger_error "Error calculating runtime stats" e ;; ret zero_runtime).

(** [analyze_hot_water_cycles_from_df(self, df, time_range)]; the range is
    only written to the log. *)
Definition analyze_hot_water_cycles_from_df (df : DataFrame)
    (time_range : string) : M CycleSummary :=
  try_except
    (ret (hot_water_summary 10 df))
    (fun e =>
       logger_error "Error analyzing hot water cycles from dataframe" e ;;
       ret zero_cycles).

(** [analyze_hot_water_cycles(self, time_range)] *)
Definition analyze_hot_water_cycles (time_range : string) : M CycleSummary :=
  try_except
    (let* df :=
       query_metrics ["switch_valve_status"; "hot_water_top"; "power_consumption"]
         time_range (Some "1m") in
     ret (hot_water_summary 5 df))
    (fun e => logger_error "Error analyzing hot water cycles" e ;; ret zero_cycles).

(** [calculate_cop_from_df(self, df)] *)
Definition calculate_cop_from_df (df : DataFrame) : M (list PivotRow) :=
  try_except
    (ret (cop_frame df))
    (fun e => logger_error "Error calculating COP from dataframe" e ;; ret []).

(** [calculate_cop(self, time_range)] *)
Definition calculate_cop (time_range : string) : M (list PivotRow) :=
  try_except
    (let* cop_aggregation := lift (_get_cop_aggregation_window time_range) in
     let* df := query_metrics cop_metrics time_range (Some cop_aggregation) in
     calculate_cop_from_df df)
    (fun e => logger_error "Error calculating COP" e ;; ret []).

(** The [for metric in metrics] loop of [get_event_log]: the events
    appended so far are [events]. *)
Fixpoint collect_events (metrics : list string) (events : list Event)
    : M (list Event) :=
  match metrics with
  | [] => ret events
  | metric :: rest =>
      let* result :=
        lift (as_frame (query_data_frame self (EventQuery (bucket self) metric))) in
      if empty result then collect_events rest events
      else
        collect_events rest
          (events ++ metric_events (alarm_codes self) metric result)
  end.

(** [get_event_log(self, limit)] *)
Definition get_event_log (limit : Z) : M (list Event) :=
  try_except
    (let* events := collect_events event_metrics [] in
     let events := sorted_by_time_reverse events in
     let events := slice_to events limit in
     ret events)
    (fun e => logger_error "Error getting event log" e ;; ret []).

End Methods.

(** * Definitions of the specification side

    The quantities the specification speaks of, written from its words, the
    auxiliary functions of the proofs, and the example inputs. *)

(** ** Sums over a series *)

(** A timedelta in hours. *)
Definition hours (d : Z) : Q := (total_seconds d / 3600)%Q.

(** [Σ power[i] * Δt[i] / 1000] with [Δt[i]] the hours from sample [i - 1]
    to sample [i], over the samples that have a predecessor. *)
Definition backward_sum (df : DataFrame) : Q :=
  sum (List.map
         (fun i =>
            _value (iloc df i)
            * hours (_time (iloc df i) - _time (iloc df (i - 1))) / 1000)%Q
         (seq 1 (List.length df - 1))).

(** [Σ power[i] * Δt[i] / 1000] with [Δt[i]] the hours from sample [i] to
    sample [i + 1]: the left Riemann sum. *)
Definition left_riemann_sum (df : DataFrame) : Q :=
  sum (List.map
         (fun i =>
            _value (iloc df i)
            * hours (_time (iloc df (i + 1)) - _time (iloc df i)) / 1000)%Q
         (seq 0 (List.length df - 1))).

(** A frame sorted ascending by time. *)
Definition ascending (df : DataFrame) : Prop :=
  Sorted (fun a b => _time a <= _time b) df.

(** The hours from the first to the last sample. *)
Definition span_hours (df : DataFrame) : Q :=
  hours (_time (List.last df no_row) - _time (hd no_row df)).

(** The seconds accrued for a signal, in the words of the specification:
    for each sample but the last whose value is positive, the seconds to the
    next sample; for a positive last sample, the seconds of the interval
    before it. *)
Definition accrued_seconds (s : DataFrame) : Q :=
  let n := List.length s in
  (sum (List.map
          (fun i => total_seconds (_time (iloc s (i + 1)) - _time (iloc s i)))
          (List.filter (fun i => Qlt_bool 0 (_value (iloc s i)))
             (seq 0 (n - 1))))
   + (if (1 <? n)%nat && Qlt_bool 0 (_value (iloc s (n - 1)))
      then total_seconds (_time (iloc s (n - 1)) - _time (iloc s (n - 2)))
      else 0))%Q.

(** Samples at [t0], [t0 + step], [t0 + 2 step], ... *)
Definition evenly_spaced (t0 step : Z) (s : DataFrame) : Prop :=
  forall i, (i < List.length s)%nat -> _time (iloc s i) = t0 + Z.of_nat i * step.

(** The cycles the loop over the starts completes: the pairs
    [(start_time, end_time)] of the iterations whose [end_times] is not
    empty. *)
Definition completed_cycles (valve_df : DataFrame)
    : list (Timestamp * Timestamp) :=
  flat_map
    (fun start_time =>
       match end_times valve_df start_time with
       | [] => []
       | first :: _ => [(start_time, _time first)]
       end)
    (List.map _time (cycles_start valve_df)).

(** The minutes of a completed cycle. *)
Definition cycle_minutes (c : Timestamp * Timestamp) : Q :=
  duration_minutes (fst c) (snd c).

(** A sample of the valve series. *)
Definition valve (t : Timestamp) (v : Q) : Row :=
  mkRow "switch_valve_status" t v None.

(** Latest first, ties allowed. *)
Definition descending (events : list Event) : Prop :=
  StronglySorted (fun a b => ev_time b <= ev_time a) events.

(** Latest first, no two events of one time. *)
Definition strictly_descending (events : list Event) : Prop :=
  StronglySorted (fun a b => ev_time b < ev_time a) events.

(** What the scaling rule gives for the raw row [raw]: the same sample, its
    value divided by 10 unless the metric is one of the nine listed. *)
Definition scaled_value (metric : string) (raw_value : Q) (display_value : Q) : Prop :=
  (In metric
     [ "compressor_status"; "brine_pump_status"; "radiator_pump_status";
       "switch_valve_status"; "alarm_status"; "alarm_code"; "operating_mode";
       "external_control"; "power_consumption" ] ->
   display_value = raw_value)
  /\ (~ In metric
       [ "compressor_status"; "brine_pump_status"; "radiator_pump_status";
         "switch_valve_status"; "alarm_status"; "alarm_code"; "operating_mode";
         "external_control"; "power_consumption" ] ->
      display_value = (raw_value / 10)%Q).

(** A returned row against the raw row it comes from. *)
Definition scaled_row (raw out : Row) : Prop :=
  name out = name raw /\ _time out = _time raw /\ unit_ out = unit_ raw
  /\ scaled_value (name raw) (_value raw) (_value out).

(** A telemetry source with one scaled and one unscaled metric. *)
Definition scaling_source : HeatPumpDataQuery :=
  mkSelf "heatpump"
    (fun q =>
       match q with
       | LatestQuery _ =>
           ApiFrame [ mkRow "radiator_forward" 60 (355 # 1) None;
                      mkRow "power_consumption" 60 (1200 # 1) (Some "W") ]
       | _ =>
           ApiFrame [ mkRow "radiator_forward" 0 (355 # 1) None;
                      mkRow "compressor_status" 0 1 None ]
       end)
    (fun _ => None).

(** A telemetry source that answers every query with an empty frame. *)
Definition empty_source (b : string) (codes : Z -> option string)
    : HeatPumpDataQuery :=
  mkSelf b (fun _ => ApiFrame []) codes.

(** A telemetry source whose every query raises [e]. *)
Definition failing_source (b : string) (codes : Z -> option string) (e : exn)
    : HeatPumpDataQuery :=
  mkSelf b (fun _ => ApiRaise e) codes.

(** The mask of the estimate, on a row of the aligned frame. *)
Definition in_mask (row : PivotRow) : Prop :=
  exists cs rd bd,
    compressor_status row = Some cs /\ brine_delta row = Some bd
    /\ radiator_delta row = Some rd
    /\ (0 < cs)%Q /\ (1 # 2 < bd)%Q /\ (1 # 2 < rd)%Q.

(** Two aligned timestamps with a raw estimate of [2 + 48 / 1 = 50]; the
    compressor runs at the first and is idle at the second. *)
Definition cop_example_df : DataFrame :=
  [ mkRow "radiator_forward" 0 88 None; mkRow "radiator_return" 0 40 None;
    mkRow "brine_in_evaporator" 0 3 None; mkRow "brine_out_condenser" 0 2 None;
    mkRow "compressor_status" 0 1 None;
    mkRow "radiator_forward" 60 88 None; mkRow "radiator_return" 60 40 None;
    mkRow "brine_in_evaporator" 60 3 None; mkRow "brine_out_condenser" 60 2 None;
    mkRow "compressor_status" 60 0 None ].

(** The aligned frame of [cop_example_df]. *)
Definition cop_example_rows : list PivotRow :=
  Eval vm_compute in cop_frame cop_example_df.

(** The energy column summed along the frame, each row against its
    predecessor [prev]. *)
Fixpoint energy_after (prev : Row) (l : DataFrame) : Q :=
  match l with
  | [] => 0%Q
  | r :: rest =>
      (_value r * hours (_time r - _time prev) / 1000 + energy_after r rest)%Q
  end.

(** 1500 W over two hours, sampled after 10 minutes, 1 hour and 2 hours. *)
Definition energy_example_df : DataFrame :=
  [ mkRow "power_consumption" 0 1500 None;
    mkRow "power_consumption" 600000000000 1500 None;
    mkRow "power_consumption" 3600000000000 1500 None;
    mkRow "power_consumption" 7200000000000 1500 None ].

(** Three samples, compressor idle throughout. *)
Definition all_zero_series : DataFrame :=
  [ mkRow "compressor_status" 0 0 None;
    mkRow "compressor_status" 60000000000 0 None;
    mkRow "compressor_status" 120000000000 0 None ].

(** 61 one-minute samples over one hour, compressor running throughout. *)
Definition all_on_hour : DataFrame :=
  List.map (fun i => mkRow "compressor_status" (Z.of_nat i * 60000000000) 1 None)
    (seq 0 61).

(** The rows of a frame, each with the value of its predecessor; [p] is the
    value before the first row. *)
Fixpoint with_prev (p : Q) (l : DataFrame) : list (Row * option Q) :=
  match l with
  | [] => []
  | r :: rest => (r, Some p) :: with_prev (_value r) rest
  end.

(** The cycles that the loop completes from the start times [starts]. *)
Definition cycles_from (v : DataFrame) (starts : list Timestamp)
    : list (Timestamp * Timestamp) :=
  flat_map
    (fun start_time =>
       match end_times v start_time with
       | [] => []
       | first :: _ => [(start_time, _time first)]
       end)
    starts.

(** One cycle of the valve, opened and closed [d] nanoseconds later. *)
Definition one_cycle (d : Z) : DataFrame :=
  [ valve 0 0; valve 60000000000 1; valve (60000000000 + d) 0 ].

(** A telemetry source that serves [df] at the 1-minute aggregation only. *)
Definition one_minute_source (df : DataFrame) : HeatPumpDataQuery :=
  mkSelf "heatpump"
    (fun q =>
       match q with
       | MetricsQuery _ _ _ "1m" => ApiFrame df
       | _ => ApiRaise (UpstreamError "no such aggregation")
       end)
    (fun _ => None).

(** Compressor and brine pump start in the same minute. *)
Definition simultaneous_frames (m : string) : DataFrame :=
  if String.eqb m "compressor_status" || String.eqb m "brine_pump_status"
  then [ mkRow m 0 0 None; mkRow m 60000000000 1 None ]
  else [].

(** A telemetry source that answers the event query of metric [m] with
    [frames m]. *)
Definition frames_source (frames : string -> DataFrame) : HeatPumpDataQuery :=
  mkSelf "heatpump"
    (fun q =>
       match q with
       | EventQuery _ m => ApiFrame (frames m)
       | _ => ApiFrame []
       end)
    (fun _ => None).

(** The compressor switches every minute for a quarter of an hour: 15
    events, of which a limit of 10 returns the 10 latest, latest first. *)
Definition toggling_frames (m : string) : DataFrame :=
  if String.eqb m "compressor_status"
  then List.map
         (fun i => mkRow m (Z.of_nat i * 60000000000)
                     (inject_Z (Z.of_nat (i mod 2))) None)
         (seq 0 16)
  else [].

(** * Properties *)

(** ** Facts about the Python built-ins *)

Section StringFacts.

Lemma substring_app_l (s t : string) :
  substring 0 (String.length s) (String.append s t) = s.
Proof. induction s as [|c s IH]; simpl; [now destruct t | now rewrite IH]. Qed.

Lemma substring_app_r (s t : string) (k : nat) :
  substring (String.length s) k (String.append s t) = substring 0 k t.
Proof. induction s as [|c s IH]; simpl; auto. Qed.

Lemma string_length_app (s t : string) :
  String.length (String.append s t) = (String.length s + String.length t)%nat.
Proof. induction s as [|c s IH]; simpl; auto. Qed.

Lemma drop_last_app (s : string) (c : ascii) :
  drop_last (String.append s (String c EmptyString)) = s.
Proof.
  unfold drop_last. rewrite string_length_app. simpl.
  replace (String.length s + 1 - 1)%nat with (String.length s) by lia.
  apply substring_app_l.
Qed.

Lemma endswith_app (s : string) (c d : ascii) :
  endswith (String.append s (String c EmptyString)) (String d EmptyString)
  = Ascii.eqb c d.
Proof.
  unfold endswith. rewrite string_length_app.
  change (String.length (String c EmptyString)) with 1%nat.
  change (String.length (String d EmptyString)) with 1%nat.
  replace (String.length s + 1 - 1)%nat with (String.length s) by lia.
  rewrite substring_app_r.
  replace (1 <=? String.length s + 1)%nat with true
    by (symmetry; apply Nat.leb_le; lia).
  simpl. destruct (Ascii.eqb c d); reflexivity.
Qed.

End StringFacts.

Section IntFacts.

Lemma int_digits_of_uint (d : Decimal.uint) (b : bool) :
  d <> Decimal.Nil \/ b = true ->
  int_digits b (NilEmpty.string_of_uint d) = Some d.
Proof.
  revert b. induction d; intros b H; simpl;
    try (rewrite IHd by (now right); reflexivity).
  destruct H as [H | ->]; [contradiction | reflexivity].
Qed.

Lemma rstrip_of_uint (d : Decimal.uint) :
  rstrip (NilEmpty.string_of_uint d) = NilEmpty.string_of_uint d.
Proof.
  induction d; simpl; auto; rewrite IHd;
    destruct (NilEmpty.string_of_uint d); reflexivity.
Qed.

Lemma pos_to_uint_nonnil (p : positive) : Pos.to_uint p <> Decimal.Nil.
Proof.
  intro H. pose proof (DecimalPos.Unsigned.of_to p) as E.
  rewrite H in E. discriminate.
Qed.

Lemma int_of_uint_string (d : Decimal.uint) :
  d <> Decimal.Nil ->
  int (NilEmpty.string_of_uint d) = Ok (Z.of_uint d).
Proof.
  intros Hd. unfold int, strip.
  assert (Hl : lstrip (NilEmpty.string_of_uint d) = NilEmpty.string_of_uint d)
    by (destruct d; reflexivity).
  rewrite Hl, rstrip_of_uint.
  pose proof (int_digits_of_uint d false (or_introl Hd)) as E.
  destruct d; try contradiction; simpl in *; rewrite E; reflexivity.
Qed.

Lemma int_of_neg_uint_string (d : Decimal.uint) :
  d <> Decimal.Nil ->
  int (String "-" (NilEmpty.string_of_uint d)) = Ok (- Z.of_uint d).
Proof.
  intros Hd. unfold int, strip.
  change (lstrip (String "-" (NilEmpty.string_of_uint d)))
    with (String "-" (NilEmpty.string_of_uint d)).
  assert (Hr : rstrip (String "-" (NilEmpty.string_of_uint d))
               = String "-" (NilEmpty.string_of_uint d)).
  { simpl. rewrite rstrip_of_uint.
    destruct (NilEmpty.string_of_uint d); reflexivity. }
  rewrite Hr. cbv beta iota.
  rewrite (int_digits_of_uint d false (or_introl Hd)). reflexivity.
Qed.

Lemma nilzero_string_of_uint (d : Decimal.uint) :
  d <> Decimal.Nil ->
  NilZero.string_of_uint d = NilEmpty.string_of_uint d.
Proof. destruct d; intros H; [contradiction | reflexivity ..]. Qed.

(** Parsing the decimal numeral of an integer gives the integer back. *)
Lemma int_str_of_Z (z : Z) : int (str_of_Z z) = Ok z.
Proof.
  unfold str_of_Z. destruct z as [|p|p]; [reflexivity| |]; simpl;
    pose proof (pos_to_uint_nonnil p) as Hp;
    rewrite nilzero_string_of_uint by exact Hp.
  - rewrite int_of_uint_string by exact Hp. f_equal.
    change (Z.of_int (Z.to_int (Z.pos p)) = Z.pos p). apply DecimalZ.of_to.
  - rewrite int_of_neg_uint_string by exact Hp. f_equal.
    change (Z.of_int (Z.to_int (Z.neg p)) = Z.neg p). apply DecimalZ.of_to.
Qed.

End IntFacts.

(** ** Aggregation windows *)

Example window_24h : _get_aggregation_window "24h" = Ok "5m".
Proof. reflexivity. Qed.

Example window_7d :
  _get_aggregation_window "7d" = Ok "30m"
  /\ _get_cop_aggregation_window "7d" = Ok "10m".
Proof. split; reflexivity. Qed.

Example window_spaces_underscore : _get_aggregation_window " 1_0 h" = Ok "5m".
Proof. reflexivity. Qed.

Example window_not_a_number : exists e, _get_aggregation_window "xh" = Raise e.
Proof. eexists. reflexivity. Qed.

(** C6. Both window policies, on the range written [<n>h] or [<n>d] for an
    integer [n]: the batch policy gives 1, 3, 5, 15 minutes for at most 1, 6,
    24 and more hours and 5 minutes, 30 minutes, 2 hours, 6 hours for at most
    1, 7, 30 and more days; the COP policy gives 1, 2, 5, 10 minutes and
    5 minutes, 10 minutes, 10 minutes, 1 hour.  The selectors are functions
    of the range alone. *)
Theorem window_policy (n : Z) :
  _get_aggregation_window (String.append (str_of_Z n) "h")
  = Ok (if n <=? 1 then "1m" else if n <=? 6 then "3m"
        else if n <=? 24 then "5m" else "15m")
  /\ _get_aggregation_window (String.append (str_of_Z n) "d")
  = Ok (if n <=? 1 then "5m" else if n <=? 7 then "30m"
        else if n <=? 30 then "2h" else "6h")
  /\ _get_cop_aggregation_window (String.append (str_of_Z n) "h")
  = Ok (if n <=? 1 then "1m" else if n <=? 6 then "2m"
        else if n <=? 24 then "5m" else "10m")
  /\ _get_cop_aggregation_window (String.append (str_of_Z n) "d")
  = Ok (if n <=? 1 then "5m" else if n <=? 7 then "10m"
        else if n <=? 30 then "10m" else "1h").
Proof.
  unfold _get_aggregation_window, _get_cop_aggregation_window.
  rewrite !endswith_app, !drop_last_app, int_str_of_Z.
  change (Ascii.eqb "h" "h") with true.
  change (Ascii.eqb "d" "h") with false.
  change (Ascii.eqb "d" "d") with true.
  cbv beta iota.
  repeat split;
    destruct (n <=? 1); try reflexivity;
    destruct (n <=? 6); try reflexivity;
    destruct (n <=? 7); try reflexivity;
    destruct (n <=? 24); try reflexivity;
    destruct (n <=? 30); reflexivity.
Qed.

(** An error leaves a selector only when the range ends in [h] or [d] and
    the text before the suffix is not an integer literal: it is the
    [ValueError] of [int]. *)
Lemma window_error_is_int_error (time_range : string) (e : exn) :
  _get_aggregation_window time_range = Raise e
  \/ _get_cop_aggregation_window time_range = Raise e ->
  (endswith time_range "h" = true \/ endswith time_range "d" = true)
  /\ int (drop_last time_range) = Raise e.
Proof.
  unfold _get_aggregation_window, _get_cop_aggregation_window.
  destruct (endswith time_range "h"), (endswith time_range "d");
    destruct (int (drop_last time_range)) as [z|e'];
    intros [H | H];
    repeat match type of H with
           | (if ?b then _ else _) = _ => destruct b
           end;
    try discriminate H; injection H as ->; auto.
Qed.

(** C7, as the code has it: a range that ends neither in [h] nor in [d] is
    not rejected; both selectors return the default window [5m]. *)
Theorem window_other_unit_default (time_range : string) :
  endswith time_range "h" = false ->
  endswith time_range "d" = false ->
  _get_aggregation_window time_range = Ok "5m"
  /\ _get_cop_aggregation_window time_range = Ok "5m".
Proof.
  intros Hh Hd. unfold _get_aggregation_window, _get_cop_aggregation_window.
  rewrite Hh, Hd. split; reflexivity.
Qed.

Lemma window_other_unit_default_witness :
  _get_aggregation_window "30m" = Ok "5m"
  /\ _get_cop_aggregation_window "30m" = Ok "5m".
Proof. apply (window_other_unit_default "30m"); reflexivity. Defined.

(** A range in minutes is answered with a window, not with an error. *)
Lemma window_minutes_not_rejected :
  ~ (exists e, _get_aggregation_window "30m" = Raise e)
  /\ ~ (exists e, _get_cop_aggregation_window "2w" = Raise e).
Proof. split; intros [e H]; discriminate H. Qed.

(** ** Scaling of raw values *)

Lemma str_in_In (x : string) (l : list string) : str_in x l = true <-> In x l.
Proof.
  unfold str_in. rewrite existsb_exists. split.
  - intros [y [Hy E]]. apply String.eqb_eq in E. now subst.
  - intros H. exists x. split; [exact H | apply String.eqb_refl].
Qed.

Lemma scaled_value_rule (metric : string) (raw : Q) :
  scaled_value metric raw
    (if negb (str_in metric no_division_fields) then (raw / 10)%Q else raw).
Proof.
  change (scaled_value metric raw
            (if negb (str_in metric no_division_fields) then (raw / 10)%Q else raw))
    with ((In metric no_division_fields ->
           (if negb (str_in metric no_division_fields) then (raw / 10)%Q else raw)
           = raw)
          /\ (~ In metric no_division_fields ->
              (if negb (str_in metric no_division_fields) then (raw / 10)%Q else raw)
              = (raw / 10)%Q)).
  rewrite <- str_in_In.
  destruct (str_in metric no_division_fields); split; intros H;
    try reflexivity; try discriminate; now destruct H.
Qed.

Lemma latest_fold_lookup (rows : DataFrame) :
  forall (acc : gmap string LatestEntry) (m : string) (e : LatestEntry),
    fold_left
      (fun (latest : gmap string LatestEntry) row =>
         <[ name row :=
              mkLatest
                (if negb (str_in (name row) no_division_fields)
                 then (_value row / 10)%Q else _value row)
                (match unit_ row with Some u => u | None => "" end)
                (_time row) ]> latest)
      rows acc !! m = Some e ->
    acc !! m = Some e
    \/ exists raw, In raw rows /\ name raw = m /\ time e = _time raw
                   /\ scaled_value m (_value raw) (value e).
Proof.
  induction rows as [|row rows IH]; intros acc m e H; simpl in H.
  - now left.
  - apply IH in H. destruct H as [H | [raw [Hin Hraw]]].
    + apply lookup_insert_Some in H. destruct H as [[Hn He] | [Hn He]].
      * right. exists row. subst e m. cbn [time value].
        split; [now left|]. split; [reflexivity|]. split; [reflexivity|].
        apply scaled_value_rule.
      * now left.
    + right. exists raw. split; [now right | exact Hraw].
Qed.



Example scaling_example :
  returned (query_metrics scaling_source
              ["radiator_forward"; "compressor_status"] "24h" None)
  = Some [ mkRow "radiator_forward" 0 ((355 # 1) / 10) None;
           mkRow "compressor_status" 0 1 None ].
Proof. reflexivity. Qed.

(** ** No data and upstream failure *)

(** C8, as the code has it.  With no samples every analysis returns its
    all-zero (or empty) result, without raising and without an error record.
    A failing query is caught where it is sent: the analysis returns the same
    all-zero (or empty) result as for no samples, and the failure is visible
    only as an [ERROR] record in the log. *)
Theorem no_data_and_failure_same_result (b : string)
    (codes : Z -> option string) (e : exn) (time_range w wc : string)
    (price_per_kwh : Q) (limit : Z) :
  _get_aggregation_window time_range = Ok w ->
  _get_cop_aggregation_window time_range = Ok wc ->
  let nodata := empty_source b codes in
  let failing := failing_source b codes e in
  let querying := ERROR (String.append "Error querying metrics"
                           (String.append ": " (str_of_exn e))) in
  (calculate_energy_costs nodata time_range price_per_kwh
   = (Ok zero_energy, [])
   /\ calculate_energy_costs failing time_range price_per_kwh
      = (Ok zero_energy, [querying]))
  /\ (calculate_runtime_stats nodata time_range = (Ok zero_runtime, [])
      /\ calculate_runtime_stats failing time_range
         = (Ok zero_runtime, [querying]))
  /\ (analyze_hot_water_cycles nodata time_range = (Ok zero_cycles, [])
      /\ analyze_hot_water_cycles failing time_range
         = (Ok zero_cycles, [querying]))
  /\ (calculate_cop nodata time_range = (Ok [], [])
      /\ calculate_cop failing time_range = (Ok [], [querying]))
  /\ (get_event_log nodata limit = (Ok [], [])
      /\ get_event_log failing limit
         = (Ok [], [ERROR (String.append "Error getting event log"
                             (String.append ": " (str_of_exn e)))]))
  /\ (analyze_hot_water_cycles_from_df [] time_range = (Ok zero_cycles, [])
      /\ calculate_cop_from_df [] = (Ok [], [])).
Proof.
  intros Hw Hc nodata failing querying.
  unfold calculate_energy_costs, calculate_runtime_stats,
    analyze_hot_water_cycles, calculate_cop, get_event_log, query_metrics.
  cbn [lift bind]. rewrite Hw, Hc.
  repeat split; try reflexivity.
  cbn. unfold slice_to. destruct (0 <=? limit); rewrite firstn_nil; reflexivity.
Qed.

Lemma no_data_and_failure_same_result_witness :
  let nodata := empty_source "heatpump" (fun _ => None) in
  let failing := failing_source "heatpump" (fun _ => None) (UpstreamError "timeout") in
  let querying := ERROR "Error querying metrics: timeout" in
  (calculate_energy_costs nodata "24h" 2 = (Ok zero_energy, [])
   /\ calculate_energy_costs failing "24h" 2 = (Ok zero_energy, [querying]))
  /\ (calculate_runtime_stats nodata "24h" = (Ok zero_runtime, [])
      /\ calculate_runtime_stats failing "24h" = (Ok zero_runtime, [querying]))
  /\ (analyze_hot_water_cycles nodata "24h" = (Ok zero_cycles, [])
      /\ analyze_hot_water_cycles failing "24h" = (Ok zero_cycles, [querying]))
  /\ (calculate_cop nodata "24h" = (Ok [], [])
      /\ calculate_cop failing "24h" = (Ok [], [querying]))
  /\ (get_event_log nodata 10 = (Ok [], [])
      /\ get_event_log failing 10
         = (Ok [], [ERROR "Error getting event log: timeout"]))
  /\ (analyze_hot_water_cycles_from_df [] "24h" = (Ok zero_cycles, [])
      /\ calculate_cop_from_df [] = (Ok [], [])).
Proof.
  apply (no_data_and_failure_same_result "heatpump" (fun _ => None)
           (UpstreamError "timeout") "24h" "5m" "5m" 2 10); reflexivity.
Defined.

(** A query that times out and a query that finds nothing give the caller
    the same energy result: the failure is not surfaced distinctly. *)
Lemma upstream_failure_not_distinct :
  returned (calculate_energy_costs
              (failing_source "heatpump" (fun _ => None) (UpstreamError "timeout"))
              "24h" 2)
  = returned (calculate_energy_costs
                (empty_source "heatpump" (fun _ => None)) "24h" 2).
Proof. reflexivity. Qed.

(** ** Comparisons on rationals *)

Lemma Qlt_bool_iff (a b : Q) : Qlt_bool a b = true <-> (a < b)%Q.
Proof.
  unfold Qlt_bool. rewrite negb_true_iff. split.
  - intros H. apply Qnot_le_lt. intros L. apply Qle_bool_iff in L. congruence.
  - intros H. destruct (Qle_bool b a) eqn:E; [| reflexivity].
    apply Qle_bool_iff in E. exfalso. apply (Qlt_not_le _ _ H E).
Qed.

Lemma Qlt_bool_false_iff (a b : Q) : Qlt_bool a b = false <-> (b <= a)%Q.
Proof.
  unfold Qlt_bool. rewrite negb_false_iff. apply Qle_bool_iff.
Qed.

(** ** COP estimate *)

Lemma pivot_cell_no_column (df : DataFrame) (t : Timestamp) (metric : string) :
  has_column df metric = false -> pivot_cell df t metric = None.
Proof.
  unfold has_column, pivot_cell. intros H.
  assert (E : List.filter
                (fun r => (_time r =? t) && String.eqb (name r) metric) df = []).
  { induction df as [|r df IH]; [reflexivity|].
    cbn [existsb] in H. apply orb_false_iff in H. destruct H as [Hr Hdf].
    cbn [List.filter]. rewrite Hr, andb_false_r. auto. }
  rewrite E. reflexivity.
Qed.

(** The derived columns of a row of the aligned frame, from its six metric
    cells alone. *)
Lemma cop_row_columns (df : DataFrame) (t : Timestamp) :
  let row := cop_row df t in
  radiator_delta row = cell_sub (radiator_forward row) (radiator_return row)
  /\ brine_delta row = cell_sub (brine_in_evaporator row) (brine_out_condenser row)
  /\ estimated_cop row
     = if cell_gt (compressor_status row) 0
          && cell_gt (brine_delta row) (1 # 2)
          && cell_gt (radiator_delta row) (1 # 2)
       then match radiator_delta row, brine_delta row with
            | Some rd, Some bd => Some (clip (3 # 2) 6 (2 + rd / bd))%Q
            | _, _ => None
            end
       else None.
Proof.
  unfold cop_row. cbn [radiator_delta brine_delta estimated_cop radiator_forward
    radiator_return brine_in_evaporator brine_out_condenser compressor_status].
  pose proof (pivot_cell_no_column df t "radiator_forward") as Hrf.
  pose proof (pivot_cell_no_column df t "radiator_return") as Hrr.
  pose proof (pivot_cell_no_column df t "brine_in_evaporator") as Hbi.
  pose proof (pivot_cell_no_column df t "brine_out_condenser") as Hbo.
  pose proof (pivot_cell_no_column df t "compressor_status") as Hcs.
  destruct (has_column df "radiator_forward");
    [| rewrite (Hrf eq_refl) ];
  (destruct (has_column df "radiator_return");
    [| rewrite (Hrr eq_refl) ]);
  (destruct (has_column df "brine_in_evaporator");
    [| rewrite (Hbi eq_refl) ]);
  (destruct (has_column df "brine_out_condenser");
    [| rewrite (Hbo eq_refl) ]);
  (destruct (has_column df "compressor_status");
    [| rewrite (Hcs eq_refl) ]);
  cbn [andb cell_sub cell_gt];
  repeat match goal with
         | |- context [cell_sub ?a None] =>
             replace (cell_sub a None) with (@None Q) by (now destruct a)
         | |- context [cell_gt ?a ?c && false] =>
             rewrite andb_false_r
         end;
  cbn [andb cell_sub cell_gt]; rewrite ?andb_false_r;
  repeat split; try reflexivity;
  match goal with
  | |- _ = (if ?b then _ else _) => destruct b; try reflexivity
  end;
  repeat match goal with
         | |- context [match ?x with Some _ => _ | None => _ end] => destruct x
         end; reflexivity.
Qed.

Lemma clip_spec (x : Q) : (clip (3 # 2) 6 x == Qmin 6 (Qmax (3 # 2) x))%Q.
Proof.
  unfold clip.
  destruct (Qlt_bool x (3 # 2)) eqn:E1.
  - apply Qlt_bool_iff in E1.
    destruct (Q.max_spec (3 # 2) x) as [[H M] | [H M]];
      destruct (Q.min_spec 6 (Qmax (3 # 2) x)) as [[H' M'] | [H' M']];
      rewrite M', ?M; lra.
  - apply Qlt_bool_false_iff in E1.
    destruct (Qlt_bool 6 x) eqn:E2;
      [apply Qlt_bool_iff in E2 | apply Qlt_bool_false_iff in E2];
      destruct (Q.max_spec (3 # 2) x) as [[H M] | [H M]];
      destruct (Q.min_spec 6 (Qmax (3 # 2) x)) as [[H' M'] | [H' M']];
      rewrite M', ?M; rewrite ?M in H'; lra.
Qed.

Lemma cell_gt_iff (a : option Q) (c : Q) :
  cell_gt a c = true <-> exists x, a = Some x /\ (c < x)%Q.
Proof.
  destruct a as [x|]; simpl.
  - rewrite Qlt_bool_iff. split; [eauto | intros [y [[= <-] H]]; exact H].
  - split; [discriminate | intros [y [[=] _]]].
Qed.


Example cop_example_estimates :
  List.map estimated_cop cop_example_rows = [Some 6%Q; None].
Proof. reflexivity. Qed.


(** ** Energy integration *)

Lemma sort_values_ascending (df : DataFrame) :
  ascending df -> sort_values df = df.
Proof.
  unfold ascending. induction 1 as [|a l Hs IH Hd]; [reflexivity|].
  cbn [sort_values fold_right]. fold (sort_values l). rewrite IH.
  destruct Hd as [|x rest Hx]; [reflexivity|].
  cbn [insert_by_time]. apply Z.leb_le in Hx. now rewrite Hx.
Qed.

Lemma energy_kwh_after (prev_time : Z) (l : DataFrame) (prev : Row) :
  _time prev = prev_time ->
  (sum (List.map (fun vh => (fst vh * snd vh) / 1000)%Q
          (combine (List.map _value l)
             (fillna 0
                (List.map (option_map (fun d => total_seconds d / 3600)%Q)
                   (diff_from prev_time (List.map _time l))))))
   == energy_after prev l)%Q.
Proof.
  revert prev_time prev. induction l as [|r l IH]; intros t prev Ht.
  - reflexivity.
  - cbn [List.map diff_from fillna combine sum fold_right energy_after
         option_map fst snd].
    fold (sum (List.map (fun vh => (fst vh * snd vh) / 1000)%Q
            (combine (List.map _value l)
               (fillna 0
                  (List.map (option_map (fun d => total_seconds d / 3600)%Q)
                     (diff_from (_time r) (List.map _time l))))))).
    rewrite (IH (_time r) r eq_refl). unfold hours. rewrite Ht. reflexivity.
Qed.

Lemma energy_kwh_sum (r0 : Row) (l : DataFrame) :
  (sum (energy_kwh (r0 :: l)) == energy_after r0 l)%Q.
Proof.
  unfold energy_kwh, time_diff_hours.
  cbn [List.map diff fillna combine sum fold_right option_map fst snd].
  fold (sum (List.map (fun vh => (fst vh * snd vh) / 1000)%Q
          (combine (List.map _value l)
             (fillna 0
                (List.map (option_map (fun d => total_seconds d / 3600)%Q)
                   (diff_from (_time r0) (List.map _time l))))))).
  rewrite (energy_kwh_after (_time r0) l r0 eq_refl). field.
Qed.

Lemma sum_map_ext (f g : nat -> Q) (l : list nat) :
  (forall i, In i l -> (f i == g i)%Q) ->
  (sum (List.map f l) == sum (List.map g l))%Q.
Proof.
  induction l as [|i l IH]; intros H; [reflexivity|].
  cbn [List.map sum fold_right].
  fold (sum (List.map f l)). fold (sum (List.map g l)).
  rewrite IH by (intros; apply H; now right).
  rewrite (H i) by now left. reflexivity.
Qed.

Lemma energy_after_backward (r0 : Row) (l : DataFrame) :
  (energy_after r0 l == backward_sum (r0 :: l))%Q.
Proof.
  unfold backward_sum.
  replace (List.length (r0 :: l) - 1)%nat with (List.length l)
    by (cbn [List.length]; lia).
  revert r0. induction l as [|r l IH]; intros r0; [reflexivity|].
  cbn [energy_after List.length seq List.map sum fold_right].
  rewrite IH. unfold iloc at 1 2 3. cbn [nth Nat.sub].
  apply Qplus_comp; [reflexivity|].
  rewrite <- (seq_shift (List.length l) 1), List.map_map.
  apply sum_map_ext. intros i Hi. apply in_seq in Hi.
  unfold iloc. destruct i as [|i]; [lia|].
  cbn [nth Nat.sub]. rewrite Nat.sub_0_r.
  destruct i; reflexivity.
Qed.

Lemma hours_add (a b c : Z) : (hours (b - a) + hours (c - b) == hours (c - a))%Q.
Proof.
  unfold hours, total_seconds.
  replace (c - a) with ((b - a) + (c - b)) by lia.
  rewrite (inject_Z_plus (b - a) (c - b)). field.
Qed.

Lemma energy_after_constant (P : Q) (l : DataFrame) (r0 : Row) :
  (forall r, In r l -> (_value r == P)%Q) ->
  (energy_after r0 l
   == P * hours (_time (List.last (r0 :: l) no_row) - _time r0) / 1000)%Q.
Proof.
  revert r0. induction l as [|r l IH]; intros r0 H.
  - cbn [energy_after List.last]. unfold hours, total_seconds.
    rewrite Z.sub_diag. change (inject_Z 0) with 0%Q. field.
  - cbn [energy_after]. rewrite IH by (intros; apply H; now right).
    rewrite (H r) by now left.
    change (List.last (r0 :: r :: l) no_row) with (List.last (r :: l) no_row).
    rewrite <- (hours_add (_time r0) (_time r) (_time (List.last (r :: l) no_row))).
    field.
Qed.

Lemma round_half_even_comp (x y : Q) :
  (x == y)%Q -> round_half_even x = round_half_even y.
Proof.
  intros E. unfold round_half_even.
  rewrite (Qfloor_comp _ _ E).
  assert (C : ((x - inject_Z (Qfloor y) ?= 1 # 2) =
               (y - inject_Z (Qfloor y) ?= 1 # 2))%Q)
    by (apply Qcompare_comp; [rewrite E|]; reflexivity).
  rewrite C. reflexivity.
Qed.

Lemma round_comp (x y : Q) (n : nat) : (x == y)%Q -> round x n = round y n.
Proof.
  intros E. unfold round. f_equal. f_equal.
  apply round_half_even_comp. now rewrite E.
Qed.

Lemma Qeq_round (x y : Q) (n : nat) : (x == y)%Q -> (round x n == round y n)%Q.
Proof. intros E. now rewrite (round_comp x y n E). Qed.




(** ** Duty-cycle runtime *)

Lemma In_insert_by_time (r x : Row) (df : DataFrame) :
  In x (insert_by_time r df) <-> x = r \/ In x df.
Proof.
  induction df as [|y df IH]; cbn [insert_by_time].
  - cbn. intuition.
  - destruct (_time r <=? _time y); cbn [In] in *; rewrite ?IH; intuition.
Qed.

Lemma In_sort_values (x : Row) (df : DataFrame) :
  In x (sort_values df) <-> In x df.
Proof.
  induction df as [|r df IH]; [reflexivity|].
  cbn [sort_values fold_right]. fold (sort_values df).
  rewrite In_insert_by_time, IH. cbn. intuition.
Qed.

Lemma fold_accrue (c : nat -> bool) (g : nat -> Q) (l : list nat) (a : Q) :
  (fold_left (fun (acc : Q) (i : nat) => if c i then (acc + g i)%Q else acc) l a
   == a + sum (List.map g (List.filter c l)))%Q.
Proof.
  revert a. induction l as [|i l IH]; intros a; cbn [fold_left List.filter].
  - cbn. ring.
  - rewrite IH. destruct (c i); cbn [List.map sum fold_right]; [| reflexivity].
    fold (sum (List.map g (List.filter c l))). ring.
Qed.

Lemma sum_map_const (g : nat -> Q) (k : Q) (l : list nat) :
  (forall i, In i l -> (g i == k)%Q) ->
  (sum (List.map g l) == inject_Z (Z.of_nat (List.length l)) * k)%Q.
Proof.
  induction l as [|i l IH]; intros H.
  - cbn. ring.
  - cbn [List.map sum fold_right List.length].
    fold (sum (List.map g l)).
    rewrite IH by (intros; apply H; now right).
    rewrite (H i) by now left.
    rewrite Nat2Z.inj_succ. unfold Z.succ. rewrite inject_Z_plus.
    change (inject_Z 1) with 1%Q. ring.
Qed.

Lemma filter_all {A : Type} (c : A -> bool) (l : list A) :
  (forall i, In i l -> c i = true) -> List.filter c l = l.
Proof.
  induction l as [|i l IH]; intros H; [reflexivity|].
  cbn [List.filter]. rewrite (H i) by now left.
  f_equal. apply IH. intros; apply H; now right.
Qed.

Lemma filter_none {A : Type} (c : A -> bool) (l : list A) :
  (forall i, In i l -> c i = false) -> List.filter c l = [].
Proof.
  induction l as [|i l IH]; intros H; [reflexivity|].
  cbn [List.filter]. rewrite (H i) by now left.
  apply IH. intros; apply H; now right.
Qed.

(** The loop of the estimator computes the accrued seconds of the sorted
    series. *)
Lemma runtime_seconds_accrued (s : DataFrame) :
  (runtime_seconds s == accrued_seconds (sort_values s))%Q.
Proof.
  unfold runtime_seconds, accrued_seconds.
  destruct s as [|r s]; [vm_compute; reflexivity|].
  cbn [empty]. cbv zeta.
  set (s' := sort_values (r :: s)).
  pose proof (fold_accrue
                (fun i => Qlt_bool 0 (_value (iloc s' i)))
                (fun i => total_seconds (_time (iloc s' (i + 1)) - _time (iloc s' i)))
                (seq 0 (List.length s' - 1)) 0%Q) as F.
  cbv beta in F.
  destruct ((1 <? List.length s')%nat
            && Qlt_bool 0 (_value (iloc s' (List.length s' - 1))));
    rewrite F; ring.
Qed.

Lemma iloc_In (s : DataFrame) (i : nat) :
  (i < List.length s)%nat -> In (iloc s i) s.
Proof. intros H. unfold iloc. now apply nth_In. Qed.

Lemma Qlt_bool_zero_of_eq (v : Q) : (v == 0)%Q -> Qlt_bool 0 v = false.
Proof. intros E. apply Qlt_bool_false_iff. rewrite E. apply Qle_refl. Qed.

Lemma runtime_seconds_all_zero (s : DataFrame) :
  (forall r, In r s -> (_value r == 0)%Q) -> (runtime_seconds s == 0)%Q.
Proof.
  intros H. rewrite runtime_seconds_accrued. unfold accrued_seconds.
  set (s' := sort_values s).
  assert (H' : forall i, (i < List.length s')%nat ->
                         Qlt_bool 0 (_value (iloc s' i)) = false).
  { intros i Hi. apply Qlt_bool_zero_of_eq, H.
    apply (In_sort_values _ s). now apply iloc_In. }
  rewrite filter_none
    by (intros i Hi; apply in_seq in Hi; apply H'; lia).
  destruct (1 <? List.length s')%nat eqn:E; cbn [andb].
  - apply Nat.ltb_lt in E. rewrite H' by lia. reflexivity.
  - reflexivity.
Qed.

Lemma Zmax_list_spec (l : list Z) (t : Z) :
  In (Zmax_list t l) (t :: l) /\ forall x, In x (t :: l) -> x <= Zmax_list t l.
Proof.
  unfold Zmax_list. revert t. induction l as [|y l IH]; intros t.
  - cbn. split; [now left | intros x [E | []]; lia].
  - cbn [fold_left]. destruct (IH (Z.max t y)) as [Hin Hle]. split.
    + destruct Hin as [Hin | Hin]; [| now right; right].
      rewrite <- Hin.
      destruct (Z.max_spec t y) as [[_ ->] | [_ ->]]; [right; now left | now left].
    + intros x [E | [E | Hx]].
      * specialize (Hle (Z.max t y) (or_introl eq_refl)). lia.
      * specialize (Hle (Z.max t y) (or_introl eq_refl)). lia.
      * apply Hle. now right.
Qed.

Lemma Zmin_list_spec (l : list Z) (t : Z) :
  In (Zmin_list t l) (t :: l) /\ forall x, In x (t :: l) -> Zmin_list t l <= x.
Proof.
  unfold Zmin_list. revert t. induction l as [|y l IH]; intros t.
  - cbn. split; [now left | intros x [E | []]; lia].
  - cbn [fold_left]. destruct (IH (Z.min t y)) as [Hin Hle]. split.
    + destruct Hin as [Hin | Hin]; [| now right; right].
      rewrite <- Hin.
      destruct (Z.min_spec t y) as [[_ ->] | [_ ->]]; [now left | right; now left].
    + intros x [E | [E | Hx]].
      * specialize (Hle (Z.min t y) (or_introl eq_refl)). lia.
      * specialize (Hle (Z.min t y) (or_introl eq_refl)). lia.
      * apply Hle. now right.
Qed.

(** The span of a frame, from bounds on its times that are attained. *)
Lemma time_span_bounds (df : DataFrame) (lo hi : Z) :
  (forall r, In r df -> lo <= _time r <= hi) ->
  (exists r, In r df /\ _time r = lo) ->
  (exists r, In r df /\ _time r = hi) ->
  time_span df = hi - lo.
Proof.
  intros Hb [rl [Hl El]] [rh [Hh Eh]]. unfold time_span.
  destruct df as [|r0 rest]; [contradiction|].
  cbn [List.map].
  change (_time r0 :: List.map _time rest) with (List.map _time (r0 :: rest)).
  destruct (Zmax_list_spec (List.map _time rest) (_time r0)) as [Mi Ml].
  destruct (Zmin_list_spec (List.map _time rest) (_time r0)) as [mi ml].
  change (_time r0 :: List.map _time rest) with (List.map _time (r0 :: rest)) in *.
  apply in_map_iff in Mi, mi.
  destruct Mi as [rM [EM HM]], mi as [rm [Em Hm]].
  pose proof (Hb rM HM). pose proof (Hb rm Hm).
  pose proof (Ml (_time rh) (in_map _time _ _ Hh)).
  pose proof (ml (_time rl) (in_map _time _ _ Hl)).
  lia.
Qed.

Lemma evenly_spaced_tail (t0 step : Z) (r : Row) (s : DataFrame) :
  evenly_spaced t0 step (r :: s) -> evenly_spaced (t0 + step) step s.
Proof.
  intros H i Hi. specialize (H (S i)). cbn [List.length] in H.
  unfold iloc in *. cbn [nth] in H. rewrite H by lia. lia.
Qed.

Lemma evenly_spaced_ascending (step : Z) (s : DataFrame) (t0 : Z) :
  0 <= step -> evenly_spaced t0 step s -> ascending s.
Proof.
  intros Hstep. revert t0. unfold ascending.
  induction s as [|r s IH]; intros t0 H; constructor.
  - apply (IH (t0 + step)). now apply evenly_spaced_tail in H.
  - destruct s as [|r' s]; constructor.
    pose proof (H 0%nat) as H0. pose proof (H 1%nat) as H1.
    cbn [List.length] in H0, H1. unfold iloc in H0, H1. cbn [nth] in H0, H1.
    rewrite H0, H1 by lia. lia.
Qed.

Lemma total_seconds_pos (d : Z) : 0 < d -> (0 < total_seconds d)%Q.
Proof.
  intros H. unfold total_seconds, Qlt, Qdiv, Qmult, Qinv, inject_Z. cbn. lia.
Qed.

Lemma total_seconds_scale (k : nat) (step : Z) :
  (total_seconds (Z.of_nat k * step)
   == inject_Z (Z.of_nat k) * total_seconds step)%Q.
Proof. unfold total_seconds. rewrite inject_Z_mult. field. Qed.

Lemma In_iloc (s : DataFrame) (r : Row) :
  In r s -> exists i, (i < List.length s)%nat /\ iloc s i = r.
Proof. intros H. unfold iloc. now apply In_nth. Qed.

Lemma hours_pos (x : Q) : (0 < x)%Q -> (0 < x / 3600)%Q.
Proof. intros H. apply Qlt_shift_div_l; lra. Qed.

Lemma empty_false {A : Type} (l : list A) :
  (1 <= List.length l)%nat -> empty l = false.
Proof. destruct l; cbn; [lia | reflexivity]. Qed.

Section EvenlySpaced.

Variables (ones : DataFrame) (t0 step : Z).
Hypothesis step_pos : 0 < step.
Hypothesis two_samples : (2 <= List.length ones)%nat.
Hypothesis spaced : evenly_spaced t0 step ones.
Hypothesis positive :
  forall r, In r ones -> name r = "compressor_status" /\ (0 < _value r)%Q.

Let N : Q := inject_Z (Z.of_nat (List.length ones)).

Lemma ones_sorted : sort_values ones = ones.
Proof.
  apply sort_values_ascending, (evenly_spaced_ascending step _ t0);
    [lia | exact spaced].
Qed.

Lemma ones_step (i : nat) :
  (i + 1 < List.length ones)%nat ->
  _time (iloc ones (i + 1)) - _time (iloc ones i) = step.
Proof. intros H. rewrite !spaced by lia. lia. Qed.

Lemma ones_positive (i : nat) :
  (i < List.length ones)%nat -> Qlt_bool 0 (_value (iloc ones i)) = true.
Proof. intros H. apply Qlt_bool_iff, positive, iloc_In, H. Qed.

Lemma ones_runtime_seconds :
  (runtime_seconds ones == N * total_seconds step)%Q.
Proof.
  rewrite runtime_seconds_accrued, ones_sorted. unfold accrued_seconds.
  rewrite filter_all
    by (intros i Hi; apply in_seq in Hi; apply ones_positive; lia).
  rewrite (sum_map_const _ (total_seconds step))
    by (intros i Hi; apply in_seq in Hi; rewrite ones_step by lia; reflexivity).
  rewrite length_seq.
  replace (1 <? List.length ones)%nat with true
    by (symmetry; apply Nat.ltb_lt; lia).
  rewrite ones_positive by lia. cbn [andb].
  assert (F : _time (iloc ones (List.length ones - 1))
              - _time (iloc ones (List.length ones - 2)) = step).
  { replace (List.length ones - 1)%nat with (List.length ones - 2 + 1)%nat
      by lia.
    apply ones_step. lia. }
  rewrite F. unfold N.
  replace (Z.of_nat (List.length ones))
    with (Z.of_nat (List.length ones - 1) + 1) by lia.
  rewrite inject_Z_plus. change (inject_Z 1) with 1%Q. ring.
Qed.

Lemma ones_time_span :
  time_span ones = Z.of_nat (List.length ones - 1) * step.
Proof.
  rewrite (time_span_bounds ones t0 (t0 + Z.of_nat (List.length ones - 1) * step)).
  - lia.
  - intros r Hr. apply In_iloc in Hr. destruct Hr as [i [Hi <-]].
    rewrite spaced by exact Hi. nia.
  - exists (iloc ones 0). split; [apply iloc_In; lia|].
    rewrite spaced by lia. lia.
  - exists (iloc ones (List.length ones - 1)). split; [apply iloc_In; lia|].
    rewrite spaced by lia. reflexivity.
Qed.

Lemma ones_percent :
  (compressor_runtime_percent (runtime_stats_of_df ones)
   == round (100 * N / (N - 1)) 1)%Q.
Proof.
  unfold runtime_stats_of_df.
  rewrite empty_false by lia. cbv zeta. rewrite ones_sorted, ones_time_span.
  assert (Hspan : (0 < total_seconds (Z.of_nat (List.length ones - 1) * step))%Q)
    by (apply total_seconds_pos; nia).
  assert (Hstep : (0 < total_seconds step)%Q) by now apply total_seconds_pos.
  pose proof (hours_pos _ Hspan) as Hh.
  replace (Qeq_bool (total_seconds (Z.of_nat (List.length ones - 1) * step) / 3600) 0)
    with false
    by (symmetry; apply not_true_is_false; intros C;
        apply Qeq_bool_iff in C; lra).
  replace (Qlt_bool 0 (total_seconds (Z.of_nat (List.length ones - 1) * step) / 3600))
    with true by (symmetry; apply Qlt_bool_iff; lra).
  cbn [compressor_runtime_percent].
  assert (W : where_name "compressor_status" ones = ones)
    by (apply filter_all; intros r Hr; apply String.eqb_eq, positive, Hr).
  rewrite W. apply Qeq_round.
  rewrite ones_runtime_seconds, total_seconds_scale.
  assert (HN : (inject_Z (Z.of_nat (List.length ones - 1)) == N - 1)%Q).
  { unfold N. replace (Z.of_nat (List.length ones))
      with (Z.of_nat (List.length ones - 1) + 1) by lia.
    rewrite inject_Z_plus. change (inject_Z 1) with 1%Q. ring. }
  rewrite HN.
  assert (HN1 : (0 < N - 1)%Q).
  { rewrite <- HN. change 0%Q with (inject_Z 0). rewrite <- Zlt_Qlt. lia. }
  field. split; lra.
Qed.

End EvenlySpaced.

Lemma runtime_percent_all_zero (zeros : DataFrame) :
  (forall r, In r zeros -> name r = "compressor_status" -> (_value r == 0)%Q) ->
  (compressor_runtime_percent (runtime_stats_of_df zeros) == 0)%Q.
Proof.
  intros H. unfold runtime_stats_of_df.
  destruct (empty zeros); [reflexivity|]. cbv zeta.
  destruct (Qeq_bool _ 0); [reflexivity|].
  cbn [compressor_runtime_percent].
  assert (Z0 : (runtime_seconds
                  (where_name "compressor_status" (sort_values zeros)) == 0)%Q).
  { apply runtime_seconds_all_zero. intros r Hr.
    apply filter_In in Hr. destruct Hr as [Hr Hn].
    apply (proj1 (In_sort_values _ _)) in Hr.
    apply String.eqb_eq in Hn. now apply H. }
  transitivity (round 0 1); [| vm_compute; reflexivity].
  apply Qeq_round. destruct (Qlt_bool 0 _); [| reflexivity].
  rewrite Z0. unfold Qdiv. ring.
Qed.

Lemma runtime_zero_window (df : DataFrame) :
  (forall r r', In r df -> In r' df -> _time r = _time r') ->
  runtime_stats_of_df df = zero_runtime.
Proof.
  intros H. unfold runtime_stats_of_df.
  destruct df as [|r0 rest]; [reflexivity|].
  cbn [empty]. cbv zeta.
  rewrite (time_span_bounds (sort_values (r0 :: rest)) (_time r0) (_time r0)).
  - rewrite Z.sub_diag.
    change (Qeq_bool (total_seconds 0 / 3600) 0) with true. reflexivity.
  - intros r Hr. apply (proj1 (In_sort_values _ _)) in Hr.
    rewrite (H r r0 Hr (or_introl eq_refl)). lia.
  - exists r0. split; [apply In_sort_values; now left | reflexivity].
  - exists r0. split; [apply In_sort_values; now left | reflexivity].
Qed.




(** ** Hot-water cycles *)

Lemma combine_shift (l : DataFrame) (p : Q) :
  combine l (List.map Some (removelast (p :: List.map _value l))) = with_prev p l.
Proof.
  revert p. induction l as [|r l IH]; intros p; [reflexivity|].
  cbn [List.map]. 
  change (removelast (p :: _value r :: List.map _value l))
    with (p :: removelast (_value r :: List.map _value l)).
  cbn [List.map combine with_prev]. now rewrite IH.
Qed.

Lemma combine_shift1 (r : Row) (l : DataFrame) :
  combine (r :: l) (shift1 (List.map _value (r :: l)))
  = (r, None) :: with_prev (_value r) l.
Proof.
  cbn [List.map shift1 combine]. f_equal. apply combine_shift.
Qed.

Lemma In_with_prev (l : DataFrame) (p q : Q) (r : Row) :
  In (r, Some q) (with_prev p l) <->
  (exists post, l = r :: post /\ q = p)
  \/ (exists pre a post, l = pre ++ a :: r :: post /\ q = _value a).
Proof.
  revert p. induction l as [|x l IH]; intros p; cbn [with_prev In].
  - split; [contradiction|].
    intros [[post [H _]] | [pre [a [post [H _]]]]]; [discriminate|].
    destruct pre; discriminate.
  - rewrite IH. split.
    + intros [H | [[post [-> ->]] | [pre [a [post [-> ->]]]]]].
      * injection H as -> ->. left. eauto.
      * right. exists [], x, post. auto.
      * right. exists (x :: pre), a, post. auto.
    + intros [[post [H ->]] | [pre [a [post [H ->]]]]].
      * injection H as -> ->. now left.
      * destruct pre as [|y pre]; cbn in H; injection H as -> ->.
        -- right. left. eauto.
        -- right. right. eauto.
Qed.

(** A cycle start is a row of value 1 whose predecessor has value 0. *)
Lemma cycles_start_spec (v : DataFrame) (r : Row) :
  In r (cycles_start v) <->
  exists pre a post,
    v = pre ++ a :: r :: post /\ (_value a == 0)%Q /\ (_value r == 1)%Q.
Proof.
  unfold cycles_start. rewrite in_map_iff. split.
  - intros [[r' p] [E H]]. cbn in E. subst r'.
    apply filter_In in H. destruct H as [Hin Hf]. cbn [fst snd] in Hf.
    apply andb_true_iff in Hf. destruct Hf as [H1 H0].
    destruct p as [q|]; [| discriminate].
    destruct v as [|r0 l]; [contradiction|].
    rewrite combine_shift1 in Hin. destruct Hin as [Hin | Hin]; [discriminate|].
    apply In_with_prev in Hin.
    apply Qeq_bool_iff in H1, H0.
    destruct Hin as [[post [-> ->]] | [pre [a [post [-> ->]]]]].
    + exists [], r0, post. auto.
    + exists (r0 :: pre), a, post. auto.
  - intros [pre [a [post [-> [H0 H1]]]]].
    exists (r, Some (_value a)). split; [reflexivity|].
    apply filter_In. split.
    + destruct pre as [|r0 pre]; cbn [app]; rewrite combine_shift1; right;
        apply In_with_prev.
      * left. eauto.
      * right. eauto.
    + cbn [fst snd]. apply andb_true_iff. split; now apply Qeq_bool_iff.
Qed.

Lemma filter_head {A : Type} (f : A -> bool) (l : list A) (z : A) (rest : list A) :
  List.filter f l = z :: rest ->
  exists pre post,
    l = pre ++ z :: post /\ f z = true /\ (forall x, In x pre -> f x = false).
Proof.
  induction l as [|x l IH]; cbn [List.filter]; [discriminate|].
  destruct (f x) eqn:E.
  - intros [= -> <-]. exists [], l. repeat split; auto. intros y [].
  - intros H. destruct (IH H) as [pre [post [-> [Hz Hpre]]]].
    exists (x :: pre), post. repeat split; auto.
    intros y [<- | Hy]; auto.
Qed.

Lemma filter_head_of {A : Type} (f : A -> bool) (pre post : list A) (z : A) :
  f z = true -> (forall x, In x pre -> f x = false) ->
  List.filter f (pre ++ z :: post) = z :: List.filter f post.
Proof.
  intros Hz Hpre. induction pre as [|x pre IH]; cbn [app List.filter].
  - now rewrite Hz.
  - rewrite (Hpre x) by now left. apply IH. intros; apply Hpre; now right.
Qed.

Lemma filter_twice {A : Type} (f g : A -> bool) (l : list A) :
  List.filter g (List.filter f l) = List.filter (fun x => f x && g x) l.
Proof.
  induction l as [|x l IH]; [reflexivity|]. cbn [List.filter].
  destruct (f x); cbn [andb List.filter]; [destruct (g x)|]; now rewrite IH.
Qed.

(** The end of a cycle is the first row of value 0 strictly after its
    start. *)
Lemma end_times_spec (v : DataFrame) (s e : Timestamp) :
  (exists first rest, end_times v s = first :: rest /\ _time first = e) <->
  exists pre z post,
    v = pre ++ z :: post /\ (_value z == 0)%Q /\ s < _time z /\ _time z = e
    /\ forall x, In x pre -> ~ ((_value x == 0)%Q /\ s < _time x).
Proof.
  unfold end_times. rewrite filter_twice. split.
  - intros [first [rest [H <-]]].
    apply filter_head in H. destruct H as [pre [post [-> [Hz Hpre]]]].
    apply andb_true_iff in Hz. destruct Hz as [Ht Hv].
    exists pre, first, post. repeat split; auto.
    + now apply Qeq_bool_iff.
    + now apply Z.ltb_lt.
    + intros x Hx [Hv' Ht']. specialize (Hpre x Hx).
      apply andb_false_iff in Hpre. destruct Hpre as [C | C].
      * apply Z.ltb_ge in C. lia.
      * apply Qeq_bool_neq in C. contradiction.
  - intros [pre [z [post [-> [Hv [Ht [<- Hpre]]]]]]].
    eexists z, _. split; [| reflexivity].
    apply filter_head_of.
    + apply andb_true_iff. split; [now apply Z.ltb_lt | now apply Qeq_bool_iff].
    + intros x Hx. apply not_true_is_false. intros C.
      apply andb_true_iff in C. destruct C as [C1 C2].
      apply (Hpre x Hx). split; [now apply Qeq_bool_iff | now apply Z.ltb_lt].
Qed.

Lemma completed_cycles_spec (v : DataFrame) (s e : Timestamp) :
  In (s, e) (completed_cycles v) <->
  (exists b, In b (cycles_start v) /\ _time b = s)
  /\ (exists first rest, end_times v s = first :: rest /\ _time first = e).
Proof.
  unfold completed_cycles. rewrite in_flat_map. split.
  - intros [s' [Hs Hin]]. apply in_map_iff in Hs. destruct Hs as [b [<- Hb]].
    destruct (end_times v (_time b)) as [|first rest] eqn:E; [contradiction|].
    destruct Hin as [[= <- <-] | []]. split; [eauto|].
    rewrite E. eauto.
  - intros [[b [Hb <-]] [first [rest [E <-]]]].
    exists (_time b). split; [now apply in_map|].
    rewrite E. now left.
Qed.

Ltac decide_ltb :=
  repeat match goal with
         | |- context [Z.ltb ?a ?b] =>
             first [ replace (Z.ltb a b) with true
                       by (symmetry; apply Z.ltb_lt; lia)
                   | replace (Z.ltb a b) with false
                       by (symmetry; apply Z.ltb_ge; lia) ]
         end.



(** ** Minimum-duration filter *)

Lemma cycle_loop_from (MIN : Q) (v p : DataFrame) (starts : list Timestamp)
    (acc : CycleAcc) :
  let acc' := fold_left (cycle_step MIN v p) starts acc in
  cycle_durations acc'
  = cycle_durations acc
    ++ List.map cycle_minutes
         (List.filter (fun c => negb (Qlt_bool (cycle_minutes c) MIN))
            (cycles_from v starts))
  /\ filtered_count acc'
     = (filtered_count acc
        + List.length
            (List.filter (fun c => Qlt_bool (cycle_minutes c) MIN)
               (cycles_from v starts)))%nat.
Proof.
  revert acc. induction starts as [|s starts IH]; intros acc; cbn zeta.
  - cbn. rewrite app_nil_r. split; [reflexivity | lia].
  - cbn [fold_left]. destruct (IH (cycle_step MIN v p acc s)) as [D F].
    cbn zeta in D, F. rewrite D, F. clear D F IH.
    unfold cycles_from. cbn [flat_map]. unfold cycle_step.
    destruct (end_times v s) as [|first rest].
    + cbn [app]. split; reflexivity.
    + cbn [app List.filter].
      change (cycle_minutes (s, _time first))
        with (duration_minutes s (_time first)).
      destruct (Qlt_bool (duration_minutes s (_time first)) MIN);
        cbn [negb cycle_durations filtered_count List.map List.length].
      * split; [reflexivity | lia].
      * rewrite <- app_assoc. split; [reflexivity | lia].

Qed.

Lemma filter_split_length {A : Type} (f : A -> bool) (l : list A) :
  (List.length (List.filter f l)
   + List.length (List.filter (fun x => negb (f x)) l))%nat
  = List.length l.
Proof.
  induction l as [|x l IH]; [reflexivity|]. cbn [List.filter].
  destruct (f x); cbn [negb List.length]; lia.
Qed.

Lemma length_cycles_from (v : DataFrame) (starts : list Timestamp) :
  List.length (cycles_from v starts)
  = List.length
      (List.filter (fun s => negb (empty (end_times v s))) starts).
Proof.
  induction starts as [|s starts IH]; [reflexivity|].
  unfold cycles_from. cbn [flat_map List.filter].
  rewrite List.length_app. fold (cycles_from v starts). rewrite IH.
  destruct (end_times v s); reflexivity.
Qed.

(** C3. A completed cycle whose duration equals the threshold is retained
    and one below it is rejected; the threshold is 5 minutes in the analysis
    that queries at 1-minute aggregation and 10 minutes in the analysis of a
    batch frame; rejected and retained cycles together are the detected
    0-to-1 transitions for which a closing 0 was found. *)
Theorem duration_filter (MIN : Q) (valve_df power_df : DataFrame) :
  let acc := cycle_loop MIN valve_df power_df in
  let found := completed_cycles valve_df in
  (cycle_durations acc
   = List.map cycle_minutes
       (List.filter (fun c => negb (Qlt_bool (cycle_minutes c) MIN)) found)
   /\ filtered_count acc
      = List.length (List.filter (fun c => Qlt_bool (cycle_minutes c) MIN) found))
  /\ (forall c, In c found ->
        ((cycle_minutes c == MIN)%Q -> In (cycle_minutes c) (cycle_durations acc))
        /\ ((cycle_minutes c < MIN)%Q ->
            In c (List.filter (fun c => Qlt_bool (cycle_minutes c) MIN) found)
            /\ ~ In c (List.filter
                         (fun c => negb (Qlt_bool (cycle_minutes c) MIN)) found)))
  /\ ((filtered_count acc + List.length (cycle_durations acc))%nat
      = List.length
          (List.filter (fun s => negb (empty (end_times valve_df s)))
             (List.map _time (cycles_start valve_df))))
  /\ (List.map total_cycles
        [ hot_water_summary 10 (one_cycle 600000000000);
          hot_water_summary 10 (one_cycle 599999999999);
          hot_water_summary 5 (one_cycle 300000000000);
          hot_water_summary 5 (one_cycle 299999999999) ]
      = [1; 0; 1; 0]%nat
      /\ List.map (fun df => option_map total_cycles
                               (returned (analyze_hot_water_cycles_from_df df "7d")))
           [ one_cycle 600000000000; one_cycle 599999999999;
             one_cycle 300000000000 ]
         = [Some 1; Some 0; Some 0]%nat
      /\ List.map (fun df => option_map total_cycles
                               (returned (analyze_hot_water_cycles
                                            (one_minute_source df) "7d")))
           [ one_cycle 600000000000; one_cycle 300000000000;
             one_cycle 299999999999 ]
         = [Some 1; Some 1; Some 0]%nat).
Proof.
  intros acc found.
  destruct (cycle_loop_from MIN valve_df power_df
              (List.map _time (cycles_start valve_df)) (mkAcc [] [] 0))
    as [D F].
  cbn zeta in D, F. cbn [cycle_durations filtered_count app Nat.add] in D, F.
  fold (cycle_loop MIN valve_df power_df) in D, F.
  fold (completed_cycles valve_df) in D, F. fold acc in D, F. fold found in D, F.
  split; [split; assumption|]. split; [| split].
  - intros c Hc. split.
    + intros E. rewrite D. apply in_map. apply filter_In. split; [exact Hc|].
      apply negb_true_iff, Qlt_bool_false_iff. rewrite E. apply Qle_refl.
    + intros L. split.
      * apply filter_In. split; [exact Hc | now apply Qlt_bool_iff].
      * intros C. apply filter_In in C. destruct C as [_ C].
        apply negb_true_iff, Qlt_bool_false_iff in C.
        apply (Qlt_not_le _ _ L C).
  - rewrite D, F, length_map, filter_split_length.
    apply length_cycles_from.
  - repeat split; vm_compute; reflexivity.
Qed.

(** ** Event log *)

Lemma insert_reverse_perm (e : Event) (l : list Event) :
  Permutation (insert_by_time_reverse e l) (e :: l).
Proof.
  induction l as [|x l IH]; cbn [insert_by_time_reverse]; [reflexivity|].
  destruct (ev_time x <=? ev_time e); [reflexivity|].
  rewrite IH. apply perm_swap.
Qed.

Lemma sorted_reverse_perm (events : list Event) :
  Permutation (sorted_by_time_reverse events) events.
Proof.
  induction events as [|e l IH]; [reflexivity|].
  cbn [sorted_by_time_reverse fold_right]. fold (sorted_by_time_reverse l).
  rewrite insert_reverse_perm. now constructor.
Qed.

Lemma insert_reverse_descending (e : Event) (l : list Event) :
  descending l -> descending (insert_by_time_reverse e l).
Proof.
  unfold descending. induction 1 as [|x l Hs IH Hx]; cbn [insert_by_time_reverse].
  - repeat constructor.
  - destruct (ev_time x <=? ev_time e) eqn:E.
    + apply Z.leb_le in E. constructor; [now constructor|].
      constructor; [exact E|].
      rewrite List.Forall_forall in *. intros y Hy. specialize (Hx y Hy). lia.
    + apply Z.leb_gt in E. constructor; [exact IH|].
      rewrite List.Forall_forall in *. intros y Hy.
      apply (Permutation_in _ (insert_reverse_perm e l)) in Hy.
      destruct Hy as [<- | Hy]; [lia | now apply Hx].
Qed.

Lemma sorted_reverse_descending (events : list Event) :
  descending (sorted_by_time_reverse events).
Proof.
  induction events as [|e l IH]; [constructor|].
  cbn [sorted_by_time_reverse fold_right]. now apply insert_reverse_descending.
Qed.

Lemma strongly_sorted_app {A : Type} (R : A -> A -> Prop) (l1 l2 : list A) :
  StronglySorted R (l1 ++ l2) ->
  StronglySorted R l1 /\ forall a b, In a l1 -> In b l2 -> R a b.
Proof.
  induction l1 as [|x l1 IH]; cbn [app]; intros H.
  - split; [constructor | intros a b []].
  - inversion H as [|? ? Hs Hx]; subst. destruct (IH Hs) as [S1 C].
    rewrite List.Forall_forall in Hx. split.
    + constructor; [exact S1|]. rewrite List.Forall_forall. intros y Hy.
      apply Hx, in_or_app. now left.
    + intros a b [<- | Ha] Hb; [| now apply C].
      apply Hx, in_or_app. now right.
Qed.

Lemma descending_distinct (l : list Event) :
  descending l -> List.NoDup (List.map ev_time l) -> strictly_descending l.
Proof.
  unfold descending, strictly_descending.
  induction 1 as [|x l Hs IH Hx]; intros Hn; [constructor|].
  cbn [List.map] in Hn. inversion Hn as [|? ? Hnot Hn']; subst.
  constructor; [now apply IH|].
  rewrite List.Forall_forall in *. intros y Hy. specialize (Hx y Hy).
  assert (ev_time y <> ev_time x)
    by (intros E; apply Hnot; rewrite <- E; now apply in_map).
  lia.
Qed.

(** The loop over the metrics, when the telemetry source answers the query
    of each metric [m] with the frame [frames m]: the events of the metrics,
    in the order of the metrics. *)
Lemma collect_events_merges (self : HeatPumpDataQuery)
    (frames : string -> DataFrame) (metrics : list string) (acc : list Event) :
  (forall m, as_frame (query_data_frame self (EventQuery (bucket self) m))
             = Ok (frames m)) ->
  collect_events self metrics acc
  = (Ok (acc ++ flat_map
                  (fun m => metric_events (alarm_codes self) m (frames m))
                  metrics), []).
Proof.
  intros H. revert acc. induction metrics as [|m metrics IH]; intros acc.
  - cbn. now rewrite app_nil_r.
  - cbn [collect_events flat_map]. rewrite H. cbn [lift bind].
    destruct (frames m) as [|r rest] eqn:E; cbn [empty].
    + rewrite IH. reflexivity.
    + rewrite IH, app_nil_r, app_assoc. reflexivity.
Qed.

(** C9, as the code has it.  The events of all signals are merged, sorted
    latest first and cut to the limit: the result is the first [limit]
    events of the sorted merge, no event left out is later than one
    returned, and 15 events with a limit of 10 give 10.  Events of different
    signals can carry one timestamp, so the order is descending with ties;
    it is strictly descending when the timestamps of the events are
    pairwise distinct. *)
Theorem event_log_sorted_limited (self : HeatPumpDataQuery)
    (frames : string -> DataFrame) (limit : Z) :
  (forall m, as_frame (query_data_frame self (EventQuery (bucket self) m))
             = Ok (frames m)) ->
  0 <= limit ->
  let detected :=
    flat_map (fun m => metric_events (alarm_codes self) m (frames m))
      event_metrics in
  let sorted := sorted_by_time_reverse detected in
  exists out,
    returned (get_event_log self limit) = Some out
    /\ Permutation sorted detected
    /\ descending sorted
    /\ out = firstn (Z.to_nat limit) sorted
    /\ List.length out = Nat.min (Z.to_nat limit) (List.length detected)
    /\ (forall kept dropped,
          In kept out -> In dropped (skipn (Z.to_nat limit) sorted) ->
          ev_time dropped <= ev_time kept)
    /\ (List.NoDup (List.map ev_time detected) -> strictly_descending out)
    /\ (List.length detected = 15%nat -> limit = 10 -> List.length out = 10%nat).
Proof.
  intros Hq Hl detected sorted.
  exists (firstn (Z.to_nat limit) sorted).
  pose proof (sorted_reverse_perm detected) as P. fold sorted in P.
  pose proof (sorted_reverse_descending detected) as D. fold sorted in D.
  assert (L : List.length (firstn (Z.to_nat limit) sorted)
              = Nat.min (Z.to_nat limit) (List.length detected))
    by (rewrite length_firstn, (Permutation_length P); reflexivity).
  split.
  { unfold get_event_log, returned.
    rewrite (collect_events_merges self frames event_metrics [] Hq).
    cbn [app lift bind try_except ret fst]. unfold slice_to.
    replace (0 <=? limit) with true by (symmetry; apply Z.leb_le; lia).
    reflexivity. }
  split; [exact P|]. split; [exact D|]. split; [reflexivity|].
  split; [exact L|]. split; [| split].
  - intros kept dropped Hk Hd.
    pose proof D as D'. unfold descending in D'.
    rewrite <- (firstn_skipn (Z.to_nat limit) sorted) in D'.
    apply strongly_sorted_app in D'. destruct D' as [_ C]. now apply C.
  - intros Hn. apply descending_distinct.
    + pose proof D as D'. unfold descending in D'.
      rewrite <- (firstn_skipn (Z.to_nat limit) sorted) in D'.
      apply strongly_sorted_app in D'. apply D'.
    + assert (Hs : List.NoDup (List.map ev_time sorted))
        by (apply (Permutation_NoDup (Permutation_map ev_time (Permutation_sym P)));
            exact Hn).
      rewrite <- (firstn_skipn (Z.to_nat limit) sorted), map_app in Hs.
      now apply NoDup_app_remove_r in Hs.
  - intros H15 H10. rewrite L, H15, H10. reflexivity.
Qed.

Lemma event_log_sorted_limited_witness :
  exists out,
    returned (get_event_log (frames_source simultaneous_frames) 10) = Some out
    /\ List.length out = 2%nat.
Proof.
  destruct (event_log_sorted_limited (frames_source simultaneous_frames)
              simultaneous_frames 10 (fun m => eq_refl) ltac:(lia))
    as [out [R [_ [_ [_ [L _]]]]]].
  exists out. split; [exact R | exact L].
Defined.

(** The two start events carry the same timestamp: the returned list is not
    strictly descending. *)
Lemma event_log_ties :
  exists a b,
    returned (get_event_log (frames_source simultaneous_frames) 10)
    = Some [a; b]
    /\ ev_time a = ev_time b
    /\ ~ strictly_descending [a; b].
Proof.
  eexists. eexists. split; [vm_compute; reflexivity|].
  split; [reflexivity|].
  intros H. inversion H as [|? ? _ F]; subst.
  inversion F as [|? ? C _]; subst. cbn in C. lia.
Qed.

Example event_log_fifteen_limit_ten :
  option_map (List.map (fun e => ev_time e / 60000000000))
    (returned (get_event_log (frames_source toggling_frames) 10))
  = Some [15; 14; 13; 12; 11; 10; 9; 8; 7; 6].
Proof. vm_compute. reflexivity. Qed.
